(** * The registry's route handlers ([registry/routes/index.js])

    A shallow embedding of the [component] (render) and [publish] request
    handlers of the registry, with the collaborators they call
    (repository, sanitiser, validator, url-builder, vm, client, targz, ...)
    taken as the fields of a [World] record, and the properties of the
    render / cache / publish pipeline proved over that embedding.

    The handlers are written in continuation-passing style in the source
    (node callbacks).  Here a handler is a computation in a small monad [M]
    that threads the process-wide artifact cache, the [res.errorDetails]
    field and a ghost log of the calls made to the collaborators, and that
    stops with an [Outcome]: a response written with [res.json], an
    exception that nothing in the handler catches, or no response at all
    (a callback that is never invoked). *)

From Stdlib Require Import ZArith Ascii String.
From stdpp Require Import gmap strings list.

Set Warnings "-register-all".
Open Scope string_scope.

(** ** JavaScript values *)

(** The values the handlers pass around without looking at their type:
    request parameters, data computed by a data-provider, errors, response
    bodies, sandbox contexts and cached artifacts.  Objects are association
    lists in insertion order.  A function object produced by sandboxed code
    is a reference [VFun id]; what it does when called is given by the
    [World].  The remaining constructors are the host objects that the
    handlers put into a sandbox context. *)
Inductive JsVal : Type :=
| VUndefined
| VNull
| VBool (b : bool)
| VNum (n : Z)
| VStr (s : string)
| VObj (fields : list (string * JsVal))
| VFun (id : nat)
| VNoop                                            (* _.noop *)
| VConsole                                         (* the host's console *)
| VJadeRuntime                                     (* require('jade/runtime.js') *)
| VRequireWrapper (deps : list (string * JsVal)).  (* new RequireWrapper(deps) *)

Abbreviation Obj := (list (string * JsVal)).

(** [if (v)], [!v], [!!v]. *)
Definition truthy (v : JsVal) : bool :=
  match v with
  | VUndefined | VNull => false
  | VBool b => b
  | VNum n => negb (n =? 0)%Z
  | VStr s => negb (String.eqb s "")
  | _ => true
  end.

(** [a || b]. *)
Definition js_or (a b : JsVal) : JsVal := if truthy a then a else b.

(** [v === 'literal']. *)
Definition strict_eq_str (v : JsVal) (lit : string) : bool :=
  match v with
  | VStr s => String.eqb s lit
  | _ => false
  end.

(** Result of an expression that may throw. *)
Inductive Exc (A : Type) : Type :=
| Value (a : A)
| Throws (e : JsVal).
Arguments Value {A} a.
Arguments Throws {A} e.

(** The error thrown by a property read on [undefined] or [null], and by a
    call of something that is not a function. *)
Definition TypeError : JsVal := VObj [("name", VStr "TypeError")].

Fixpoint obj_get (k : string) (fields : Obj) : JsVal :=
  match fields with
  | [] => VUndefined
  | (k', v) :: rest => if String.eqb k k' then v else obj_get k rest
  end.

Fixpoint obj_set (k : string) (v : JsVal) (fields : Obj) : Obj :=
  match fields with
  | [] => [(k, v)]
  | (k', v') :: rest =>
      if String.eqb k k' then (k, v) :: rest else (k', v') :: obj_set k v rest
  end.

(** [_.extend(dest, src)]: every property of [src] is assigned on [dest]. *)
Definition extend (dest src : Obj) : Obj :=
  fold_left (fun d kv => obj_set (fst kv) (snd kv) d) src dest.

(** [v.k] / [v[k]]: a [TypeError] on [undefined] and [null]; the own
    property for an object; [undefined] for the other values (whose
    inherited properties the handlers never read). *)
Definition get_prop (v : JsVal) (k : string) : Exc JsVal :=
  match v with
  | VUndefined | VNull => Throws TypeError
  | VObj fields => Value (obj_get k fields)
  | _ => Value VUndefined
  end.

Fixpoint drop_chars (n : nat) (s : string) : string :=
  match n, s with
  | O, _ => s
  | S n', String _ s' => drop_chars n' s'
  | S _, EmptyString => EmptyString
  end.

(** [s.replace(pat, rep)] with a string pattern: the first occurrence only. *)
Fixpoint replace_first (pat rep s : string) : string :=
  if String.prefix pat s then rep +:+ drop_chars (String.length pat) s
  else match s with
       | EmptyString => EmptyString
       | String c s' => String c (replace_first pat rep s')
       end.

Definition digit_of (c : ascii) : option nat :=
  let n := nat_of_ascii c in
  if (48 <=? n)%nat && (n <=? 57)%nat then Some (n - 48)%nat else None.

(** The text put in place of a placeholder by [format]: the argument at
    that position, converted to a string; the placeholder stays when there
    is no such argument. *)
Definition format_arg (to_string : JsVal -> string) (a : option JsVal)
    (placeholder : string) : string :=
  match a with
  | Some (VStr s) => s
  | Some VUndefined | None => placeholder
  | Some v => to_string v
  end.

(** [format(fmt, args...)] of the stringformat library, for the positional
    placeholders [{0}] .. [{9}] that the handlers use: one pass over the
    format string, the inserted text is not scanned again. *)
Fixpoint format_with (to_string : JsVal -> string) (fmt : string)
    (args : list JsVal) : string :=
  match fmt with
  | EmptyString => EmptyString
  | String c tail =>
      match tail with
      | String d (String e rest) =>
          if Ascii.eqb c "{" && Ascii.eqb e "}" then
            match digit_of d with
            | Some i =>
                format_arg to_string (args !! i)
                  (String c (String d (String e EmptyString)))
                +:+ format_with to_string rest args
            | None => String c (format_with to_string tail args)
            end
          else String c (format_with to_string tail args)
      | _ => String c (format_with to_string tail args)
      end
  end.

(** ** Data of the registry *)

Record TemplateInfo := {
  template_type : string;
  template_hashKey : string
}.

Record Files := {
  files_template : TemplateInfo;
  files_dataProvider : JsVal      (* falsy when the component has none *)
}.

Record OcInfo := {
  oc_files : Files;
  oc_parameters : JsVal
}.

(** What [repository.getComponent] hands to its callback. *)
Record Component := {
  component_name : string;
  component_version : string;
  component_oc : OcInfo
}.

Record Conf := {
  conf_baseUrl : string;
  conf_env : JsVal;
  conf_local : bool
}.

(** The fields of the express response object set by the registry's
    middleware before a route handler runs. *)
Record Res := {
  res_conf : Conf;
  res_injectedDependencies : Obj
}.

Record UploadedFile := {
  file_path : string;
  file_name : string
}.

Record Req := {
  params_componentName : JsVal;
  params_componentVersion : JsVal;
  req_query : JsVal;
  headers_accept : JsVal;
  headers_accept_language : JsVal;
  req_files : list (string * UploadedFile)
}.

Record RequestedComponent := {
  rc_name : JsVal;
  rc_version : JsVal;
  rc_parameters : JsVal
}.

(** The arguments [(err, value)] of a node-style callback. *)
Record Cb (A : Type) := {
  cb_err : JsVal;
  cb_arg : A
}.
Arguments cb_err {A} _.
Arguments cb_arg {A} _.

(** What a call that runs component-authored code does with its callback:
    it invokes it once with [(err, value)], throws before doing so, or
    never invokes it. *)
Inductive Async : Type :=
| Calls (err value : JsVal)
| ThrowsSync (e : JsVal)
| Silent.

(** [vm.runInNewContext(code, context)] either throws or returns, having
    mutated the context object in place. *)
Inductive VmResult : Type :=
| VmThrows (e : JsVal)
| VmDone (context' : Obj).

Record ValidationResult := {
  isValid : bool;
  errors_message : JsVal
}.

(** ** The collaborators *)

Record World := {
  repository_getComponent : JsVal -> JsVal -> Cb (option Component);
  repository_getStaticFilePath : string -> string -> string -> string;
  repository_getDataProvider : string -> string -> Cb JsVal;
  repository_getCompiledView : string -> string -> Cb JsVal;
  repository_publishComponent : string -> JsVal -> JsVal -> Cb JsVal;
  sanitiser_sanitiseComponentParameters : JsVal -> JsVal -> JsVal;
  validator_validateComponentParameters : JsVal -> JsVal -> ValidationResult;
  validator_validateVersion : JsVal -> bool;
  validator_validatePackage : list (string * UploadedFile) -> bool;
  urlBuilder_component : JsVal -> string -> JsVal;
  acceptLanguageParser_parse : JsVal -> JsVal;
  js_String : JsVal -> string;          (* String(v) for a non-string v *)
  path_resolve : list string -> string;
  vm_runInNewContext : JsVal -> Obj -> VmResult;
  call_function : nat -> JsVal -> Async;
  client_renderTemplate : JsVal -> JsVal -> JsVal -> Async;
  targz_extract : string -> string -> JsVal
}.

(** Modelled from the spec: [domain/require-wrapper.js] is not among the
    sources.  The spec describes it as "a restricted module-loader that
    permits only a pre-declared allow-list of external dependencies
    (anything else fails the load)". *)
Definition RequireWrapper (injectedDependencies : Obj) (moduleName : string)
  : Exc JsVal :=
  match List.find (fun kv => String.eqb moduleName (fst kv)) injectedDependencies with
  | Some kv => Value (snd kv)
  | None => Throws (VStr moduleName)
  end.

(** ** The two sandbox contexts *)

(** [{ jade: require('jade/runtime.js') }] *)
Definition template_context : Obj := [("jade", VJadeRuntime)].

(** [{ require: new RequireWrapper(res.injectedDependencies),
       module: { exports: {} },
       console: res.conf.local ? console : { log: _.noop } }] *)
Definition dataProvider_context (res : Res) : Obj :=
  [("require", VRequireWrapper (res_injectedDependencies res));
   ("module", VObj [("exports", VObj [])]);
   ("console", if conf_local (res_conf res) then VConsole
               else VObj [("log", VNoop)])].

Definition bind_exc {A B} (x : Exc A) (k : A -> Exc B) : Exc B :=
  match x with
  | Value a => k a
  | Throws e => Throws e
  end.

(** [context.module.exports.data] *)
Definition context_module_exports_data (context : Obj) : Exc JsVal :=
  bind_exc (get_prop (VObj context) "module") (fun module =>
  bind_exc (get_prop module "exports") (fun exports =>
  get_prop exports "data")).

(** [context.oc.components[key]] *)
Definition context_oc_components (context : Obj) (key : string) : Exc JsVal :=
  bind_exc (get_prop (VObj context) "oc") (fun oc =>
  bind_exc (get_prop oc "components") (fun components =>
  get_prop components key)).

(** ** Calls observed at the boundary of the handlers *)

Inductive Event : Type :=
| RepoGetComponent (name version : JsVal)
| RepoGetDataProvider (name version : string)
| RepoGetCompiledView (name version : string)
| RepoPublishComponent (packageOutput : string) (name version : JsVal)
| TargzExtract (packagePath packageUntarOutput : string)
| VmRunInNewContext (code : JsVal) (context : Obj)
| CacheGet (type key : string)
| CacheSet (type key : string) (data : JsVal)
| CallFunction (f : JsVal) (reqObj : JsVal)
| ClientRenderTemplate (template data options : JsVal).

(** ** The handler monad *)

Inductive Outcome : Type :=
| Responded (status : Z) (body : JsVal)   (* res.json(status, body) *)
| Uncaught (e : JsVal)                    (* an exception leaves the handler *)
| NoResponse.                             (* a callback was never invoked *)

Record St := {
  cache : gmap (string * string) JsVal;
  trace : list Event;
  errorDetails : JsVal
}.

Inductive Step (A : Type) : Type :=
| Next (a : A)
| Stop (o : Outcome).
Arguments Next {A} a.
Arguments Stop {A} o.

Definition M (A : Type) : Type := St -> Step A * St.

Definition ret {A} (a : A) : M A := fun s => (Next a, s).

Definition bind {A B} (m : M A) (k : A -> M B) : M B :=
  fun s => match m s with
           | (Next a, s') => k a s'
           | (Stop o, s') => (Stop o, s')
           end.

Declare Scope handler_scope.
Delimit Scope handler_scope with handler.
Notation "x <- m ;; k" := (bind m (fun x => k))
  (at level 100, m at next level, right associativity) : handler_scope.
Notation "m ;;; k" := (bind m (fun _ => k))
  (at level 100, right associativity) : handler_scope.
Open Scope handler_scope.

(** A handler never falls through: it ends by responding, by throwing or
    by waiting for a callback that does not come. *)
Definition Handler : Type := M Empty_set.

Definition res_json {A} (status : Z) (body : JsVal) : M A :=
  fun s => (Stop (Responded status body), s).

Definition throw {A} (e : JsVal) : M A := fun s => (Stop (Uncaught e), s).

Definition pending {A} : M A := fun s => (Stop NoResponse, s).

Definition lift {A} (x : Exc A) : M A :=
  match x with
  | Value a => ret a
  | Throws e => throw e
  end.

(** The state after a call has been added to the log. *)
Definition logged (e : Event) (s : St) : St :=
  {| cache := cache s; trace := trace s ++ [e];
     errorDetails := errorDetails s |}.

Definition log (e : Event) : M unit := fun s => (Next tt, logged e s).

Definition set_errorDetails (v : JsVal) : M unit :=
  fun s => (Next tt, {| cache := cache s; trace := trace s; errorDetails := v |}).

(** [cache.get(type, key)] of nice-cache: the stored value, or [undefined]. *)
Definition cache_get (type key : string) : M JsVal :=
  fun s => (Next (default VUndefined (cache s !! (type, key))),
            logged (CacheGet type key) s).

(** The entries of the cache after [cache.set(type, key, data)].
    nice-cache is a dependency of the registry, not one of its sources.
    Its [set] has two forms, [set(key, data)] for the default type
    [__notype__] and [set(type, key, data)], told apart by the last
    argument: a call whose third argument is falsy is taken for the
    two-argument form, so that [key] is stored under [type] in the
    default type and nothing is stored under [(type, key)]. *)
Definition cache_store (type key : string) (data : JsVal)
    (c : gmap (string * string) JsVal) : gmap (string * string) JsVal :=
  if truthy data then <[(type, key) := data]> c
  else <[("__notype__", type) := VStr key]> c.

(** [cache.set(type, key, data)]. *)
Definition cache_set (type key : string) (data : JsVal) : M unit :=
  fun s => (Next tt,
            logged (CacheSet type key data)
              {| cache := cache_store type key data (cache s);
                 trace := trace s;
                 errorDetails := errorDetails s |}).

(** Waiting for the single callback of an asynchronous call. *)
Definition await (a : Async) : M (Cb JsVal) :=
  match a with
  | Calls err v => ret {| cb_err := err; cb_arg := v |}
  | ThrowsSync e => throw e
  | Silent => pending
  end.

(** What [f(reqObj, callback)] does with its callback, for a value [f]
    taken from a sandbox context or from the cache.  A function produced
    by sandboxed code does what the [World] says.  Two host functions can
    be reached from the data-provider context: [_.noop], which returns
    without looking at its arguments, and the module loader, which takes
    its first argument for a module name and returns the module or
    throws.  No other value can be called. *)
Definition applied (w : World) (f reqObj : JsVal) : Async :=
  match f with
  | VFun id => call_function w id reqObj
  | VNoop => Silent
  | VRequireWrapper deps =>
      match RequireWrapper deps
              (match reqObj with
               | VStr moduleName => moduleName
               | _ => js_String w reqObj
               end)
      with
      | Value _ => Silent
      | Throws e => ThrowsSync e
      end
  | _ => ThrowsSync TypeError
  end.

(** [f(reqObj, callback)]. *)
Definition call (w : World) (f : JsVal) (reqObj : JsVal) : M (Cb JsVal) :=
  log (CallFunction f reqObj) ;;;
  await (applied w f reqObj).

Definition runInNewContext (w : World) (code : JsVal) (context : Obj) : M Obj :=
  log (VmRunInNewContext code context) ;;;
  match vm_runInNewContext w code context with
  | VmThrows e => throw e
  | VmDone context' => ret context'
  end.

Definition init_state (c : gmap (string * string) JsVal) : St :=
  {| cache := c; trace := []; errorDetails := VUndefined |}.

(** The outcome and the final state of a handler that has stopped. *)
Definition finish (r : Step Empty_set * St) : Outcome * St :=
  match r with
  | (Stop o, s') => (o, s')
  | (Next e, _) => match e with end
  end.

(** Running a handler from a given state. *)
Definition run (h : Handler) (s : St) : Outcome * St := finish (h s).

(** ** [exports.component] *)

Section Handlers.
Variable w : World.

Definition format : string -> list JsVal -> string :=
  format_with (js_String w).

Definition prerendered : string := "application/vnd.oc.prerendered+json".

Definition returnResult (response : Obj) (data options template : JsVal)
  : Handler :=
  log (ClientRenderTemplate template data options) ;;;
  r <- await (client_renderTemplate w template data options) ;;
  res_json 200 (VObj (extend response
                        [("html", cb_arg r);
                         ("renderMode", VStr "rendered")])).

Definition returnComponent (req : Req) (res : Res) (component : Component)
    (requestedComponent : RequestedComponent) (params : JsVal)
    (err data : JsVal) : Handler :=
  if truthy err then
    set_errorDetails (VStr "component data resolving error") ;;;
    res_json 502 (VObj [("error", VStr "component data resolving error")])
  else
    let componentHref :=
      urlBuilder_component w
        (VObj [("name", VStr (component_name component));
               ("version", rc_version requestedComponent);
               ("parameters", params)])
        (conf_baseUrl (res_conf res)) in
    let response :=
      [("href", componentHref);
       ("type", VStr (if conf_local (res_conf res)
                      then "oc-component-local" else "oc-component"));
       ("version", VStr (component_version component));
       ("requestVersion", rc_version requestedComponent)] in
    let template_info := files_template (oc_files (component_oc component)) in
    if strict_eq_str (headers_accept req) prerendered then
      res_json 200
        (VObj (extend response
                 [("data", data);
                  ("template",
                   VObj [("src", VStr (repository_getStaticFilePath w
                                         (component_name component)
                                         (component_version component)
                                         "template.js"));
                         ("type", VStr (template_type template_info));
                         ("key", VStr (template_hashKey template_info))]);
                  ("renderMode", VStr "pre-rendered")]))
    else
      let cacheKey :=
        format "{0}/{1}/template.js"
          [VStr (component_name component);
           VStr (component_version component)] in
      cached <- cache_get "file-contents" cacheKey ;;
      let key := template_hashKey template_info in
      let options :=
        VObj [("href", componentHref);
              ("key", VStr key);
              ("version", VStr (component_version component));
              ("templateType", VStr (template_type template_info))] in
      if truthy cached && negb (conf_local (res_conf res)) then
        returnResult response data options cached
      else
        log (RepoGetCompiledView (component_name component)
                                 (component_version component)) ;;;
        let templateText :=
          cb_arg (repository_getCompiledView w (component_name component)
                    (component_version component)) in
        let context := template_context in
        context' <- runInNewContext w templateText context ;;
        template <- lift (context_oc_components context' key) ;;
        cache_set "file-contents" cacheKey template ;;;
        returnResult response data options template.

(** The request context handed to a data-provider. *)
Definition reqObj (req : Req) (conf : Conf) (component : Component)
    (params : JsVal) : JsVal :=
  VObj [("acceptLanguage",
         acceptLanguageParser_parse w (headers_accept_language req));
        ("baseUrl", VStr (conf_baseUrl conf));
        ("env", conf_env conf);
        ("params", params);
        ("staticPath",
         VStr (replace_first "https:" ""
                 (repository_getStaticFilePath w
                    (component_name component)
                    (component_version component) "")))].

Definition component (req : Req) (res : Res) : Handler :=
  let requestedComponent :=
    {| rc_name := params_componentName req;
       rc_version := js_or (params_componentVersion req) (VStr "");
       rc_parameters := req_query req |} in
  let conf := res_conf res in
  log (RepoGetComponent (rc_name requestedComponent)
                        (rc_version requestedComponent)) ;;;
  let got := repository_getComponent w (rc_name requestedComponent)
               (rc_version requestedComponent) in
  if truthy (cb_err got) then
    set_errorDetails (cb_err got) ;;;
    res_json 404 (VObj [("err", cb_err got)])
  else
    component <- lift (match cb_arg got with
                       | Some c => Value c
                       | None => Throws TypeError
                       end) ;;
    let params :=
      sanitiser_sanitiseComponentParameters w
        (rc_parameters requestedComponent)
        (oc_parameters (component_oc component)) in
    let result :=
      validator_validateComponentParameters w params
        (oc_parameters (component_oc component)) in
    if negb (isValid result) then
      set_errorDetails (errors_message result) ;;;
      res_json 400 (VObj [("error", errors_message result)])
    else
      let returnComponent :=
        returnComponent req res component requestedComponent params in
      if negb (truthy (files_dataProvider (oc_files (component_oc component))))
      then returnComponent VNull (VObj [])
      else
        let cacheKey :=
          format "{0}/{1}/server.js"
            [VStr (component_name component);
             VStr (component_version component)] in
        cached <- cache_get "file-contents" cacheKey ;;
        let reqObj := reqObj req conf component params in
        if truthy cached && negb (conf_local (res_conf res)) then
          r <- call w cached reqObj ;;
          returnComponent (cb_err r) (cb_arg r)
        else
          log (RepoGetDataProvider (component_name component)
                                   (component_version component)) ;;;
          let fetched :=
            repository_getDataProvider w (component_name component)
              (component_version component) in
          if truthy (cb_err fetched) then
            set_errorDetails (VStr "component resolving error") ;;;
            res_json 502 (VObj [("error", VStr "component resolving error")])
          else
            let dataProcessorJs := cb_arg fetched in
            let context := dataProvider_context res in
            context' <- runInNewContext w dataProcessorJs context ;;
            processData <- lift (context_module_exports_data context') ;;
            cache_set "file-contents" cacheKey processData ;;;
            r <- call w processData reqObj ;;
            returnComponent (cb_err r) (cb_arg r).

(** ** [exports.publish] *)

Definition publish (req : Req) (res : Res) : Handler :=
  if negb (truthy (params_componentName req))
     || negb (truthy (params_componentVersion req)) then
    set_errorDetails (VStr "malformed request") ;;;
    res_json 409 (VObj [("error", VStr "malformed request")])
  else if negb (validator_validateVersion w (params_componentVersion req)) then
    set_errorDetails (VStr "not a valid version") ;;;
    res_json 409 (VObj [("error", VStr "not a valid version")])
  else if negb (validator_validatePackage w (req_files req)) then
    set_errorDetails (VStr "package is not valid") ;;;
    res_json 409 (VObj [("error", VStr "package is not valid")])
  else
    let files := req_files req in
    packageFile <- lift (match files with
                         | (_, f) :: _ => Value f
                         | [] => Throws TypeError
                         end) ;;
    let packagePath := path_resolve w [file_path packageFile] in
    let packageUntarOutput :=
      path_resolve w [file_path packageFile; "..";
                      replace_first ".tar.gz" "" (file_name packageFile)] in
    let packageOutput := path_resolve w [packageUntarOutput; "_package"] in
    log (TargzExtract packagePath packageUntarOutput) ;;;
    let err := targz_extract w packagePath packageUntarOutput in
    if truthy err then
      set_errorDetails (VStr (format "Package file is not valid: {0}" [err])) ;;;
      res_json 500 (VObj [("error", VStr "package file is not valid");
                          ("details", err)])
    else
      log (RepoPublishComponent packageOutput (params_componentName req)
                                (params_componentVersion req)) ;;;
      let err := cb_err (repository_publishComponent w packageOutput
                           (params_componentName req)
                           (params_componentVersion req)) in
      if truthy err then
        (* [err.code] and [err.msg], read once for the branches below *)
        code <- lift (get_prop err "code") ;;
        msg <- lift (get_prop err "msg") ;;
        if strict_eq_str code "not_allowed" then
          set_errorDetails (VStr (format "Publish not allowed: {0}" [msg])) ;;;
          res_json 403 (VObj [("error", msg)])
        else if strict_eq_str code "already_exists" then
          set_errorDetails (VStr (format "Component already exists: {0}" [msg])) ;;;
          res_json 403 (VObj [("error", msg)])
        else if strict_eq_str code "name_not_valid" then
          set_errorDetails (VStr (format "Component name not valid: {0}" [msg])) ;;;
          res_json 409 (VObj [("error", msg)])
        else
          set_errorDetails (VStr (format "Publish failed: {0}" [msg])) ;;;
          res_json 500 (VObj [("error", msg)])
      else
        res_json 200 (VObj [("ok", VBool true)]).

End Handlers.

(** ** A sample registry *)

(** A registry holding five components, used to evaluate the handlers on
    concrete requests: [banner@1.0.0] has a template and no data-provider;
    [greeter@2.0.0] has a data-provider that yields a greeting; the source
    of the data-provider of [broken@1.0.0] throws when it is executed; the
    compiled view of [noview@1.0.0] cannot be fetched; the compiled view of
    [badview@1.0.0] fails when it is rendered. *)
Module Sample.

Definition mk_component (name version hashKey : string) (dataProvider : JsVal)
  : Component :=
  {| component_name := name;
     component_version := version;
     component_oc :=
       {| oc_files :=
            {| files_template :=
                 {| template_type := "jade"; template_hashKey := hashKey |};
               files_dataProvider := dataProvider |};
          oc_parameters := VObj [] |} |}.

Definition server_js : JsVal := VObj [("src", VStr "server.js")].

Definition banner := mk_component "banner" "1.0.0" "k-banner" VUndefined.
Definition greeter := mk_component "greeter" "2.0.0" "k-greeter" server_js.
Definition broken := mk_component "broken" "1.0.0" "k-broken" server_js.
Definition noview := mk_component "noview" "1.0.0" "k-noview" VUndefined.
Definition badview := mk_component "badview" "1.0.0" "k-badview" VUndefined.

Definition published : list Component :=
  [banner; greeter; broken; noview; badview].

(** An empty requested version resolves to the (only) stored version. *)
Definition getComponent (name version : JsVal) : Cb (option Component) :=
  match name, version with
  | VStr n, VStr v =>
      match List.find (fun c => String.eqb n (component_name c)
                                && (String.eqb v "" ||
                                    String.eqb v (component_version c)))
                      published with
      | Some c => {| cb_err := VNull; cb_arg := Some c |}
      | None => {| cb_err := VStr "Component not found"; cb_arg := None |}
      end
  | _, _ => {| cb_err := VStr "Component not found"; cb_arg := None |}
  end.

Definition getStaticFilePath (name version file : string) : string :=
  "https://cdn.example.org/" +:+ name +:+ "/" +:+ version +:+ "/" +:+ file.

Definition getDataProvider (name version : string) : Cb JsVal :=
  if String.eqb name "greeter" then
    {| cb_err := VNull; cb_arg := VStr "module.exports.data = greet;" |}
  else if String.eqb name "broken" then
    {| cb_err := VNull; cb_arg := VStr "throw new Error('boom');" |}
  else {| cb_err := VStr "file not found"; cb_arg := VUndefined |}.

Definition getCompiledView (name version : string) : Cb JsVal :=
  if String.eqb name "noview" then
    {| cb_err := VStr "file not found"; cb_arg := VUndefined |}
  else {| cb_err := VNull; cb_arg := VStr ("oc.components['k-" +:+ name +:+ "'] = view;") |}.

(** The greeter's data-provider is function 1; the compiled view of
    [banner] and [greeter] is function 2, that of [badview] function 3.
    Evaluating [undefined] leaves the context as it is. *)
Definition runInNewContext (code : JsVal) (context : Obj) : VmResult :=
  match code with
  | VStr "module.exports.data = greet;" =>
      VmDone (obj_set "module" (VObj [("exports", VObj [("data", VFun 1)])])
                context)
  | VStr "throw new Error('boom');" => VmThrows (VStr "boom")
  | VStr "oc.components['k-banner'] = view;" =>
      VmDone (obj_set "oc" (VObj [("components", VObj [("k-banner", VFun 2)])])
                context)
  | VStr "oc.components['k-greeter'] = view;" =>
      VmDone (obj_set "oc" (VObj [("components", VObj [("k-greeter", VFun 2)])])
                context)
  | VStr "oc.components['k-badview'] = view;" =>
      VmDone (obj_set "oc" (VObj [("components", VObj [("k-badview", VFun 3)])])
                context)
  | _ => VmDone context
  end.

Definition callFunction (id : nat) (reqObj : JsVal) : Async :=
  match id with
  | 1 => Calls VNull (VObj [("greeting", VStr "Hello")])
  | _ => ThrowsSync TypeError
  end.

Definition renderTemplate (template data options : JsVal) : Async :=
  match template with
  | VFun 2 => Calls VNull (VStr "<div>banner</div>")
  | _ => Calls (VStr "template is not valid") VUndefined
  end.

(** [baseUrl + name + '/' + version]. *)
Definition urlBuilder (c : JsVal) (baseUrl : string) : JsVal :=
  match c with
  | VObj fields =>
      match obj_get "name" fields, obj_get "version" fields with
      | VStr n, VStr v => VStr (baseUrl +:+ n +:+ "/" +:+ v)
      | _, _ => VUndefined
      end
  | _ => VUndefined
  end.

Definition extract (packagePath packageUntarOutput : string) : JsVal :=
  if String.eqb packagePath "/tmp/corrupt.tar.gz"
  then VStr "incorrect header check" else VUndefined.

Definition publishComponent (packageOutput : string) (name version : JsVal)
  : Cb JsVal :=
  match name with
  | VStr "banner" =>
      {| cb_err := VObj [("code", VStr "already_exists");
                         ("msg", VStr "Component already exists")];
         cb_arg := VUndefined |}
  | VStr "Bad Name" =>
      {| cb_err := VObj [("code", VStr "name_not_valid");
                         ("msg", VStr "Component name not valid")];
         cb_arg := VUndefined |}
  | VStr "forbidden" =>
      {| cb_err := VObj [("code", VStr "not_allowed");
                         ("msg", VStr "Publish not allowed")];
         cb_arg := VUndefined |}
  | VStr "offline" =>
      {| cb_err := VObj [("code", VStr "s3_unavailable");
                         ("msg", VStr "storage unavailable")];
         cb_arg := VUndefined |}
  | _ => {| cb_err := VNull; cb_arg := VUndefined |}
  end.

Definition world : World :=
  {| repository_getComponent := getComponent;
     repository_getStaticFilePath := getStaticFilePath;
     repository_getDataProvider := getDataProvider;
     repository_getCompiledView := getCompiledView;
     repository_publishComponent := publishComponent;
     sanitiser_sanitiseComponentParameters := fun params _ => params;
     validator_validateComponentParameters :=
       fun _ _ => {| isValid := true; errors_message := VUndefined |};
     validator_validateVersion := fun v => strict_eq_str v "1.0.0";
     validator_validatePackage := fun files => negb (Nat.eqb (length files) 0);
     urlBuilder_component := urlBuilder;
     acceptLanguageParser_parse := fun _ => VObj [];
     js_String := fun _ => "[object Object]";
     path_resolve := fun parts => String.concat "/" parts;
     vm_runInNewContext := runInNewContext;
     call_function := callFunction;
     client_renderTemplate := renderTemplate;
     targz_extract := extract |}.

Definition res : Res :=
  {| res_conf := {| conf_baseUrl := "http://registry.example.org/";
                    conf_env := VObj [("name", VStr "production")];
                    conf_local := false |};
     res_injectedDependencies := [("underscore", VObj [])] |}.

Definition res_local : Res :=
  {| res_conf := {| conf_baseUrl := "http://localhost:3030/";
                    conf_env := VObj [("name", VStr "local")];
                    conf_local := true |};
     res_injectedDependencies := [] |}.

Definition render_req (name : string) (version accept : JsVal) : Req :=
  {| params_componentName := VStr name;
     params_componentVersion := version;
     req_query := VObj [];
     headers_accept := accept;
     headers_accept_language := VUndefined;
     req_files := [] |}.

Definition publish_req (name version : JsVal) (archive : string) : Req :=
  {| params_componentName := name;
     params_componentVersion := version;
     req_query := VObj [];
     headers_accept := VUndefined;
     headers_accept_language := VUndefined;
     req_files := [("package", {| file_path := "/tmp/" +:+ archive;
                                  file_name := archive |})] |}.

End Sample.

(** ** The other routes of the registry *)

Section ComponentInfo.
Variable w : World.

(** The own properties of the object that [repository.getComponent] hands
    to its callback (the content of the component's package.json), of
    which [Component] is the typed view. *)
Variable component_object : Component -> Obj.

(** [_.extend(undefined, source)], which depends on the version of
    underscore: it throws or returns [undefined]. *)
Variable extend_undefined : Obj -> Exc JsVal.

(** [exports.componentInfo] *)
Definition componentInfo (req : Req) (res : Res) : Handler :=
  log (RepoGetComponent (params_componentName req)
                        (params_componentVersion req)) ;;;
  let got := repository_getComponent w (params_componentName req)
               (params_componentVersion req) in
  if truthy (cb_err got) then
    set_errorDetails (cb_err got) ;;;
    res_json 404 (VObj [("err", cb_err got)])
  else
    let source :=
      [("requestVersion", js_or (params_componentVersion req) (VStr ""))] in
    body <- lift (match cb_arg got with
                  | Some component =>
                      Value (VObj (extend (component_object component) source))
                  | None => extend_undefined source
                  end) ;;
    res_json 200 body.

End ComponentInfo.

(** What [exports.staticRedirector] reads of its request and of the
    configuration, and the host functions it calls. *)
Record StaticReq := {
  route_path : JsVal;             (* req.route.path *)
  static_componentName : JsVal;   (* req.params.componentName *)
  static_wildcard : string        (* req.params[0] *)
}.

Record StaticConf := {
  static_prefix : JsVal;          (* res.conf.prefix *)
  static_local : bool;            (* res.conf.local *)
  static_path : JsVal             (* res.conf.path *)
}.

Record Host := {
  host_dirname : string;                           (* __dirname *)
  host_path_join : list JsVal -> Exc string;       (* path.join *)
  host_existsSync : string -> bool;                (* fs.existsSync *)
  host_open : string -> option JsVal;              (* the error of opening a read stream, if any *)
  host_getStaticClientPath : JsVal                 (* repository.getStaticClientPath() *)
}.

(** How a static request ends: a redirect, a JSON answer (with the
    [errorDetails] it sets), the file piped into the response once its
    stream is open, or an exception that nothing catches. *)
Inductive StaticOutcome : Type :=
| Redirect (url : JsVal)
| Json (status : Z) (body : JsVal) (details : JsVal)
| Pipe (filePath : string)
| Throw (e : JsVal).

Section StaticRedirector.
Variables (w : World) (h : Host).

(** [prefix + 'literal'] for a string or any other value. *)
Definition concat_str (v : JsVal) (s : string) : string :=
  match v with
  | VStr p => p +:+ s
  | _ => js_String w v +:+ s
  end.

Definition clientPath (conf : StaticConf) : string :=
  concat_str (if truthy (static_prefix conf) then static_prefix conf
              else VStr "/") "oc-client/client.js".

(** The second half of the handler: the file is looked for and streamed. *)
Definition serve (filePath : string) : StaticOutcome :=
  if negb (host_existsSync h filePath) then
    let details := VStr (format w "File {0} not found" [VStr filePath]) in
    Json 404 (VObj [("err", details)]) details
  else
    match host_open h filePath with
    | None => Pipe filePath
    | Some e => Throw e
    end.

(** [exports.staticRedirector] *)
Definition staticRedirector (req : StaticReq) (conf : StaticConf)
  : StaticOutcome :=
  if strict_eq_str (route_path req) (clientPath conf) then
    if static_local conf then
      match host_path_join h
              [VStr (host_dirname h);
               VStr "../../components/oc-client/_package/src/oc-client.min.js"]
      with
      | Value filePath => serve filePath
      | Throws e => Throw e
      end
    else Redirect (host_getStaticClientPath h)
  else if strict_eq_str (static_componentName req) "oc-client" then
    match host_path_join h
            [VStr (host_dirname h);
             VStr ("../../components/oc-client/_package/"
                   +:+ static_wildcard req)]
    with
    | Value filePath => serve filePath
    | Throws e => Throw e
    end
  else
    match host_path_join h [static_path conf; static_componentName req] with
    | Value dir => serve (dir +:+ "/_package/" +:+ static_wildcard req)
    | Throws e => Throw e
    end.

End StaticRedirector.

(** A host for the sample registry: paths are joined with a slash, and two
    files exist. *)
Module SampleHost.



Definition conf (local : bool) : StaticConf :=
  {| static_prefix := VUndefined;
     static_local := local;
     static_path := VStr "/srv/components" |}.

(** The object [repository.getComponent] hands over for a sample
    component. *)
Definition component_object (c : Component) : Obj :=
  [("name", VStr (component_name c));
   ("version", VStr (component_version c));
   ("requestVersion", VStr "stale")].

End SampleHost.

(** Two more components for the sample registry, behind the same
    collaborators: the data-provider source of [plain@1.0.0] assigns
    nothing to [module.exports.data]; the data-provider of [mute@1.0.0]
    (function 4) never calls back. *)
Module SampleProviders.

Definition plain := Sample.mk_component "plain" "1.0.0" "k-plain" Sample.server_js.
Definition mute := Sample.mk_component "mute" "1.0.0" "k-mute" Sample.server_js.

Definition getComponent (name version : JsVal) : Cb (option Component) :=
  match name with
  | VStr "plain" => {| cb_err := VNull; cb_arg := Some plain |}
  | VStr "mute" => {| cb_err := VNull; cb_arg := Some mute |}
  | _ => Sample.getComponent name version
  end.

Definition getDataProvider (name version : string) : Cb JsVal :=
  if String.eqb name "plain" then
    {| cb_err := VNull; cb_arg := VStr "var answer = 42;" |}
  else if String.eqb name "mute" then
    {| cb_err := VNull; cb_arg := VStr "module.exports.data = wait;" |}
  else Sample.getDataProvider name version.

Definition runInNewContext (code : JsVal) (context : Obj) : VmResult :=
  match code with
  | VStr "module.exports.data = wait;" =>
      VmDone (obj_set "module" (VObj [("exports", VObj [("data", VFun 4)])])
                context)
  | _ => Sample.runInNewContext code context
  end.

Definition callFunction (id : nat) (reqObj : JsVal) : Async :=
  match id with
  | 4 => Silent
  | _ => Sample.callFunction id reqObj
  end.

Definition world : World :=
  {| repository_getComponent := getComponent;
     repository_getStaticFilePath := Sample.getStaticFilePath;
     repository_getDataProvider := getDataProvider;
     repository_getCompiledView := Sample.getCompiledView;
     repository_publishComponent := Sample.publishComponent;
     sanitiser_sanitiseComponentParameters := fun params _ => params;
     validator_validateComponentParameters :=
       fun _ _ => {| isValid := true; errors_message := VUndefined |};
     validator_validateVersion := fun v => strict_eq_str v "1.0.0";
     validator_validatePackage := fun files => negb (Nat.eqb (length files) 0);
     urlBuilder_component := Sample.urlBuilder;
     acceptLanguageParser_parse := fun _ => VObj [];
     js_String := fun _ => "[object Object]";
     path_resolve := fun parts => String.concat "/" parts;
     vm_runInNewContext := runInNewContext;
     call_function := callFunction;
     client_renderTemplate := Sample.renderTemplate;
     targz_extract := Sample.extract |}.

End SampleProviders.

(** ** Vocabulary of the properties *)

Open Scope list_scope.

(** The effect of a logged call on the artifact cache: only [cache.set]
    changes it. *)
Definition apply_event (c : gmap (string * string) JsVal) (e : Event)
  : gmap (string * string) JsVal :=
  match e with
  | CacheSet type key data => cache_store type key data c
  | _ => c
  end.

(** [sat P Q R m]: from every state, the calls that [m] adds to the log all
    satisfy [P], and the cache changes by the [cache.set] calls among them
    only; if [m] stops, the outcome satisfies [Q]; if it goes on with a
    value, the value satisfies [R]. *)
Definition sat (P : Event -> Prop) (Q : Outcome -> Prop) {A} (R : A -> Prop)
    (m : M A) : Prop :=
  forall s, exists evs,
    trace (m s).2 = trace s ++ evs /\
    cache (m s).2 = fold_left apply_event evs (cache s) /\
    Forall P evs /\
    match (m s).1 with
    | Next a => R a
    | Stop o => Q o
    end.

Definition binds (k : string) (o : Obj) : bool :=
  existsb (fun kv => String.eqb k (fst kv)) o.

(** The calls that make up the template sandbox: the fetch of the compiled
    view, the vm execution with the templating runtime in its context, and
    the call of the render function. *)
Definition template_sandbox_event (e : Event) : bool :=
  match e with
  | RepoGetCompiledView _ _ => true
  | VmRunInNewContext _ context => binds "jade" context
  | ClientRenderTemplate _ _ _ => true
  | _ => false
  end.

(** The compile step of a data-provider: the fetch of its source and the
    vm execution of it (the context with the module loader). *)
Definition data_compile_event (e : Event) : bool :=
  match e with
  | RepoGetDataProvider _ _ => true
  | VmRunInNewContext _ context => binds "require" context
  | _ => false
  end.

(** The data path of the sandbox: the compile step of a data-provider and
    the invocation of a data-provider function. *)
Definition data_path_event (e : Event) : bool :=
  match e with
  | CallFunction _ _ => true
  | _ => data_compile_event e
  end.

(** The calls that leave the validation stage of a publish. *)
Definition publish_io_event (e : Event) : bool :=
  match e with
  | TargzExtract _ _ => true
  | RepoPublishComponent _ _ _ => true
  | _ => false
  end.

(** A call that is not a [cache.set] under [(type, key)]. *)
Definition keeps_entry (type key : string) (e : Event) : Prop :=
  forall data, e <> CacheSet type key data.

(** The cache key of an artifact of a component: name/version/kind. *)
Definition artifact_key (c : Component) (kind : string) : string :=
  component_name c +:+ "/" +:+ component_version c +:+ "/" +:+ kind.

(** The data handed to the render function by a call. *)
Definition renders_with (data : JsVal) (e : Event) : Prop :=
  match e with
  | ClientRenderTemplate _ d _ => d = data
  | _ => True
  end.

(** The [data] field of a successful pre-rendered response. *)
Definition responds_with_data (req : Req) (data : JsVal) (o : Outcome) : Prop :=
  forall body,
    o = Responded 200 body -> headers_accept req = VStr prerendered ->
    get_prop body "data" = Value data.

(** The body of a pre-rendered response: the common fields, the data, the
    static references of the template, and the render mode. *)
Definition prerendered_body (w : World) (res : Res) (c : Component)
    (requested params data : JsVal) : JsVal :=
  VObj [("href",
         urlBuilder_component w
           (VObj [("name", VStr (component_name c));
                  ("version", requested);
                  ("parameters", params)])
           (conf_baseUrl (res_conf res)));
        ("type", VStr (if conf_local (res_conf res)
                       then "oc-component-local" else "oc-component"));
        ("version", VStr (component_version c));
        ("requestVersion", requested);
        ("data", data);
        ("template",
         VObj [("src", VStr (repository_getStaticFilePath w (component_name c)
                               (component_version c) "template.js"));
               ("type", VStr (template_type
                                (files_template (oc_files (component_oc c)))));
               ("key", VStr (template_hashKey
                               (files_template (oc_files (component_oc c)))))]);
        ("renderMode", VStr "pre-rendered")].

(** The object handed to [urlBuilder.component] by [returnComponent]. *)
Definition href_source (c : Component) (version params : JsVal) : JsVal :=
  VObj [("name", VStr (component_name c));
        ("version", version);
        ("parameters", params)].

(** The fields [href], [version] and [requestVersion] of a successful
    render response, for a request of the version string [requested] that
    resolved to the component [c]. *)
Definition response_fields (w : World) (res : Res) (c : Component)
    (requested params : JsVal) (o : Outcome) : Prop :=
  forall body,
    o = Responded 200 body ->
    get_prop body "href"
    = Value (urlBuilder_component w (href_source c requested params)
               (conf_baseUrl (res_conf res))) /\
    get_prop body "version" = Value (VStr (component_version c)) /\
    get_prop body "requestVersion" = Value requested.

(** What a sandboxed execution is given and what is taken from it: the
    context of a vm execution is one of the two constructed binding sets,
    and an artifact put into the cache is the [data] export of a
    data-provider execution or the render function found under the hash
    key of the component's template after a template execution. *)
Definition sandbox_call_ok (w : World) (res : Res) (c : Component) (e : Event)
  : Prop :=
  match e with
  | VmRunInNewContext _ context =>
      context = dataProvider_context res \/ context = template_context
  | CacheSet _ _ artifact =>
      exists code context',
        (vm_runInNewContext w code (dataProvider_context res) = VmDone context' /\
         context_module_exports_data context' = Value artifact) \/
        (vm_runInNewContext w code template_context = VmDone context' /\
         context_oc_components context'
           (template_hashKey (files_template (oc_files (component_oc c))))
         = Value artifact)
  | _ => True
  end.

(** The statuses the render handler answers with. *)
Definition render_status (o : Outcome) : Prop :=
  match o with
  | Responded status _ =>
      status = 200%Z \/ status = 400%Z \/ status = 404%Z \/ status = 502%Z
  | _ => True
  end.

(** The fields of a successful render response, by the accept header of
    the request. *)
Definition negotiated (req : Req) (o : Outcome) : Prop :=
  match o with
  | Responded status body =>
      status = 200%Z ->
      exists fields,
        body = VObj fields /\
        if strict_eq_str (headers_accept req) prerendered then
          map fst fields
          = ["href"; "type"; "version"; "requestVersion";
             "data"; "template"; "renderMode"] /\
          obj_get "renderMode" fields = VStr "pre-rendered"
        else
          map fst fields
          = ["href"; "type"; "version"; "requestVersion";
             "html"; "renderMode"] /\
          obj_get "renderMode" fields = VStr "rendered"
  | _ => True
  end.

(** A call that writes to the cache writes an artifact of the component
    [c]. *)
Definition writes_only (c : Component) (e : Event) : Prop :=
  match e with
  | CacheSet type key _ =>
      type = "file-contents" /\
      (key = artifact_key c "server.js" \/ key = artifact_key c "template.js")
  | _ => True
  end.

(** A call that does not write to the cache. *)
Definition no_write (e : Event) : Prop :=
  match e with
  | CacheSet _ _ _ => False
  | _ => True
  end.

(** [pat] occurs somewhere in [s]. *)
Fixpoint occurs (pat s : string) : bool :=
  String.prefix pat s
  || match s with
     | EmptyString => false
     | String _ s' => occurs pat s'
     end.

(** The statuses the publish handler answers with. *)
Definition publish_status (o : Outcome) : Prop :=
  match o with
  | Responded status _ =>
      status = 200%Z \/ status = 403%Z \/ status = 409%Z \/ status = 500%Z
  | _ => True
  end.

(** The values that can be called. *)
Definition callable (v : JsVal) : bool :=
  match v with
  | VFun _ | VNoop | VRequireWrapper _ => true
  | _ => false
  end.

(** The body of a rendered response. *)
Definition rendered_body (w : World) (res : Res) (c : Component)
    (requested params html : JsVal) : JsVal :=
  VObj [("href",
         urlBuilder_component w
           (VObj [("name", VStr (component_name c));
                  ("version", requested);
                  ("parameters", params)])
           (conf_baseUrl (res_conf res)));
        ("type", VStr (if conf_local (res_conf res)
                       then "oc-component-local" else "oc-component"));
        ("version", VStr (component_version c));
        ("requestVersion", requested);
        ("html", html);
        ("renderMode", VStr "rendered")].

(** An error response whose body carries the reason [details]. *)
Definition error_body (body details : JsVal) : Prop :=
  body = VObj [("err", details)] \/ body = VObj [("error", details)].

(** A call that neither reads nor writes the cache entry [(type, key)]. *)
Definition leaves_entry (type key : string) (e : Event) : Prop :=
  e <> CacheGet type key /\ keeps_entry type key e.

(** * Properties *)

(** ** What a call does *)

(** Only a function produced by sandboxed code invokes the callback. *)
Lemma applied_calls w f reqObj err v :
  applied w f reqObj = Calls err v ->
  exists id, f = VFun id /\ call_function w id reqObj = Calls err v.
Proof.
  destruct f; simpl; try discriminate; eauto.
  by destruct (RequireWrapper _ _).
Qed.

Lemma applied_not_callable w f reqObj :
  callable f = false -> applied w f reqObj = ThrowsSync TypeError.
Proof. by destruct f. Qed.

(** ** What a handler may do: events and outcomes *)

Section Logic.
Context (P : Event -> Prop) (Q : Outcome -> Prop).

Local Abbreviation sat := (sat P Q).

Lemma sat_stay {A} (R : A -> Prop) (m : M A) :
  (forall s, (m s).2 = s \/
             (cache (m s).2 = cache s /\ trace (m s).2 = trace s)) ->
  (forall s, match (m s).1 with Next a => R a | Stop o => Q o end) ->
  sat R m.
Proof.
  intros Hs Hr s. exists []. rewrite app_nil_r. simpl.
  specialize (Hr s).
  destruct (Hs s) as [-> | [-> ->]]; auto.
Qed.

Lemma sat_ret {A} (R : A -> Prop) a : R a -> sat R (ret a).
Proof. intros HR. apply sat_stay; simpl; auto. Qed.

Lemma sat_stop {A} (R : A -> Prop) o : Q o -> sat R (fun s => (Stop o, s)).
Proof. intros HQ. apply sat_stay; simpl; auto. Qed.

Lemma sat_res_json {A} (R : A -> Prop) status body :
  Q (Responded status body) -> sat R (res_json status body).
Proof. apply sat_stop. Qed.

Lemma sat_throw {A} (R : A -> Prop) e : Q (Uncaught e) -> sat R (throw e).
Proof. apply sat_stop. Qed.

Lemma sat_pending {A} (R : A -> Prop) : Q NoResponse -> sat R pending.
Proof. apply sat_stop. Qed.

Lemma sat_bind {A B} (R : A -> Prop) (R' : B -> Prop) m k :
  sat R m -> (forall a, R a -> sat R' (k a)) -> sat R' (bind m k).
Proof.
  intros Hm Hk s. unfold bind.
  destruct (Hm s) as (evs & Ht & Hc & HP & Hr).
  destruct (m s) as [[a | o] s1]; simpl in *.
  - destruct (Hk a Hr s1) as (evs' & Ht' & Hc' & HP' & Hr').
    exists (evs ++ evs').
    rewrite Ht', Ht, Hc', Hc, app_assoc, fold_left_app.
    repeat split; [by apply Forall_app | done].
  - exists evs. auto.
Qed.

Lemma sat_log (R : unit -> Prop) e :
  (forall type key data, e <> CacheSet type key data) ->
  P e -> R tt -> sat R (log e).
Proof.
  intros Hne He HR s. exists [e]. simpl.
  repeat split; auto. destruct e; try done. by destruct (Hne type key data).
Qed.

Lemma sat_set_errorDetails (R : unit -> Prop) v :
  R tt -> sat R (set_errorDetails v).
Proof. intros HR. apply sat_stay; simpl; auto. Qed.

Lemma sat_cache_get (R : JsVal -> Prop) type key :
  P (CacheGet type key) -> (forall v, R v) -> sat R (cache_get type key).
Proof. intros He HR s. exists [CacheGet type key]. simpl. auto. Qed.

Lemma sat_cache_set (R : unit -> Prop) type key data :
  P (CacheSet type key data) -> R tt -> sat R (cache_set type key data).
Proof. intros He HR s. exists [CacheSet type key data]. simpl. auto. Qed.

Lemma sat_lift {A} (R : A -> Prop) (x : Exc A) :
  (forall a, x = Value a -> R a) ->
  (forall e, x = Throws e -> Q (Uncaught e)) ->
  sat R (lift x).
Proof.
  intros HV HT. destruct x; simpl; [apply sat_ret | apply sat_throw]; auto.
Qed.

Lemma sat_await (R : Cb JsVal -> Prop) (a : Async) :
  (forall err v, a = Calls err v -> R {| cb_err := err; cb_arg := v |}) ->
  (forall e, a = ThrowsSync e -> Q (Uncaught e)) ->
  (a = Silent -> Q NoResponse) ->
  sat R (await a).
Proof.
  intros HC HT HS.
  destruct a; simpl; [apply sat_ret | apply sat_throw | apply sat_pending]; auto.
Qed.

Lemma sat_call (R : Cb JsVal -> Prop) w f reqObj :
  P (CallFunction f reqObj) ->
  (forall id err v, f = VFun id -> call_function w id reqObj = Calls err v ->
                    R {| cb_err := err; cb_arg := v |}) ->
  (forall e, Q (Uncaught e)) ->
  Q NoResponse ->
  sat R (call w f reqObj).
Proof.
  intros He HC HT HS. unfold call.
  apply sat_bind with (R := fun _ => True); [by apply sat_log |].
  intros _ _.
  apply sat_await; [| done | done].
  intros err v Happlied.
  destruct (applied_calls _ _ _ _ _ Happlied) as (id & -> & Hcall). eauto.
Qed.

Lemma sat_runInNewContext (R : Obj -> Prop) w code context :
  P (VmRunInNewContext code context) ->
  (forall context', vm_runInNewContext w code context = VmDone context' ->
                    R context') ->
  (forall e, vm_runInNewContext w code context = VmThrows e ->
             Q (Uncaught e)) ->
  sat R (runInNewContext w code context).
Proof.
  intros He HD HT. unfold runInNewContext.
  apply sat_bind with (R := fun _ => True); [by apply sat_log |].
  intros _ _.
  destruct (vm_runInNewContext w code context) eqn:E;
    [apply sat_throw | apply sat_ret]; auto.
Qed.

(** What [sat] says about a run of a handler. *)
Lemma sat_run (h : Handler) s :
  sat (fun _ => True) h ->
  Q (run h s).1 /\
  exists evs, trace (run h s).2 = trace s ++ evs /\
              cache (run h s).2 = fold_left apply_event evs (cache s) /\
              Forall P evs.
Proof.
  intros Hh. destruct (Hh s) as (evs & Ht & Hc & HP & Hr).
  unfold run, finish.
  destruct (h s) as [[[] | o] s1]; simpl in *. eauto.
Qed.

Lemma sat_bind_log {B} (R' : B -> Prop) e k :
  (forall type key data, e <> CacheSet type key data) ->
  P e -> sat R' (k tt) -> sat R' (bind (log e) k).
Proof.
  intros Hne He Hk. apply sat_bind with (R := fun _ => True).
  - by apply sat_log.
  - by intros [] _.
Qed.

Lemma sat_bind_set_errorDetails {B} (R' : B -> Prop) v k :
  sat R' (k tt) -> sat R' (bind (set_errorDetails v) k).
Proof.
  intros Hk. apply sat_bind with (R := fun _ => True).
  - by apply sat_set_errorDetails.
  - by intros [] _.
Qed.

Lemma sat_bind_cache_get {B} (R' : B -> Prop) type key k :
  P (CacheGet type key) -> (forall v, sat R' (k v)) ->
  sat R' (bind (cache_get type key) k).
Proof.
  intros He Hk. apply sat_bind with (R := fun _ => True); [| auto].
  by apply sat_cache_get.
Qed.

Lemma sat_bind_cache_set {B} (R' : B -> Prop) type key data k :
  P (CacheSet type key data) -> sat R' (k tt) ->
  sat R' (bind (cache_set type key data) k).
Proof.
  intros He Hk. apply sat_bind with (R := fun _ => True).
  - by apply sat_cache_set.
  - by intros [] _.
Qed.

Lemma sat_bind_lift {A B} (R' : B -> Prop) (x : Exc A) k :
  (forall a, x = Value a -> sat R' (k a)) ->
  (forall e, x = Throws e -> Q (Uncaught e)) ->
  sat R' (bind (lift x) k).
Proof.
  intros Hk HT. apply sat_bind with (R := fun a => x = Value a); [| done].
  by apply sat_lift.
Qed.

Lemma sat_bind_await {B} (R' : B -> Prop) (a : Async) k :
  (forall err v, a = Calls err v ->
                 sat R' (k {| cb_err := err; cb_arg := v |})) ->
  (forall e, a = ThrowsSync e -> Q (Uncaught e)) ->
  (a = Silent -> Q NoResponse) ->
  sat R' (bind (await a) k).
Proof.
  intros Hk HT HS.
  apply sat_bind with
    (R := fun r => a = Calls (cb_err r) (cb_arg r)).
  - by apply sat_await.
  - intros [err v] Hr. by apply Hk.
Qed.

Lemma sat_bind_call {B} (R' : B -> Prop) w f reqObj k :
  P (CallFunction f reqObj) ->
  (forall id err v, f = VFun id -> call_function w id reqObj = Calls err v ->
                    sat R' (k {| cb_err := err; cb_arg := v |})) ->
  (forall e, Q (Uncaught e)) ->
  Q NoResponse ->
  sat R' (bind (call w f reqObj) k).
Proof.
  intros He Hk HT HS.
  apply sat_bind with
    (R := fun r => exists id, f = VFun id /\
                   call_function w id reqObj = Calls (cb_err r) (cb_arg r)).
  - apply sat_call; eauto.
  - intros [err v] (id & Hf & Hc). by eapply Hk.
Qed.

Lemma sat_bind_runInNewContext {B} (R' : B -> Prop) w code context k :
  P (VmRunInNewContext code context) ->
  (forall context', vm_runInNewContext w code context = VmDone context' ->
                    sat R' (k context')) ->
  (forall e, vm_runInNewContext w code context = VmThrows e ->
             Q (Uncaught e)) ->
  sat R' (bind (runInNewContext w code context) k).
Proof.
  intros He Hk HT.
  apply sat_bind with
    (R := fun c => vm_runInNewContext w code context = VmDone c); [| done].
  by apply sat_runInNewContext.
Qed.

Lemma sat_bind_throw {A B} (R' : B -> Prop) e (k : A -> M B) :
  Q (Uncaught e) -> sat R' (bind (throw e) k).
Proof. intros HQ. apply sat_stay; simpl; auto. Qed.

End Logic.

Lemma sat_weaken (P P' : Event -> Prop) (Q Q' : Outcome -> Prop) {A}
    (R R' : A -> Prop) (m : M A) :
  (forall e, P e -> P' e) -> (forall o, Q o -> Q' o) ->
  (forall a, R a -> R' a) ->
  sat P Q R m -> sat P' Q' R' m.
Proof.
  intros HP HQ HR Hm s. destruct (Hm s) as (evs & Ht & Hc & Hall & Hr).
  exists evs. repeat split; try done.
  - eapply Forall_impl; eauto.
  - destruct ((m s).1); auto.
Qed.

(** One step through the body of a handler. *)
Ltac sat_step :=
  lazymatch goal with
  | |- sat _ _ _ (bind (log _) _) => apply sat_bind_log; [done | |]
  | |- sat _ _ _ (bind (set_errorDetails _) _) => apply sat_bind_set_errorDetails
  | |- sat _ _ _ (bind (cache_get _ _) _) =>
      apply sat_bind_cache_get; [| intros ?]
  | |- sat _ _ _ (bind (cache_set _ _ _) _) => apply sat_bind_cache_set
  | |- sat _ _ _ (bind (lift _) _) =>
      apply sat_bind_lift; [intros ? ? | intros ? ?]
  | |- sat _ _ _ (bind (await _) _) =>
      apply sat_bind_await; [intros ? ? ? | intros ? ? | intros ?]
  | |- sat _ _ _ (bind (call _ _ _) _) =>
      apply sat_bind_call; [| intros ? ? ? ? ? | intros ? |]
  | |- sat _ _ _ (bind (runInNewContext _ _ _) _) =>
      apply sat_bind_runInNewContext; [| intros ? ? | intros ? ?]
  | |- sat _ _ _ (bind (throw _) _) => apply sat_bind_throw
  | |- sat _ _ _ (res_json _ _) => apply sat_res_json
  | |- sat _ _ _ (returnResult _ _ _ _ _) => unfold returnResult
  | |- sat _ _ _ (if ?b then _ else _) => destruct b eqn:?
  end; cbv beta zeta.

Ltac sat_steps := cbv beta zeta; repeat sat_step.

(** ** The pre-rendered mode never reaches the template sandbox *)

Section Prerendered.
Variables (w : World) (req : Req) (res : Res).
Hypothesis Haccept : headers_accept req = VStr prerendered.

Lemma strict_eq_prerendered :
  strict_eq_str (headers_accept req) prerendered = true.
Proof. rewrite Haccept. reflexivity. Qed.

Lemma returnComponent_no_template_sandbox c rc params err data :
  sat (fun e => template_sandbox_event e = false) (fun _ => True)
      (fun _ => True)
      (returnComponent w req res c rc params err data).
Proof.
  unfold returnComponent. rewrite strict_eq_prerendered.
  sat_steps; done.
Qed.

Lemma component_no_template_sandbox :
  sat (fun e => template_sandbox_event e = false) (fun _ => True)
      (fun _ => True)
      (component w req res).
Proof.
  unfold component.
  sat_steps; try done; apply returnComponent_no_template_sandbox.
Qed.

End Prerendered.

(** C8. A render request whose accept header is
    [application/vnd.oc.prerendered+json] never invokes the template
    sandbox: whatever the cache holds and whatever the collaborators
    answer, the handler makes no compiled-view fetch, no vm execution of
    template text and no call of the render function. *)
Theorem prerendered_never_invokes_template_sandbox
    (w : World) (req : Req) (res : Res) (s : St) :
  headers_accept req = VStr prerendered ->
  exists evs,
    trace (run (component w req res) s).2 = trace s ++ evs /\
    Forall (fun e => template_sandbox_event e = false) evs.
Proof.
  intros Haccept.
  destruct (sat_run _ _ (component w req res) s
              (component_no_template_sandbox w req res Haccept))
    as (_ & evs & Ht & _ & HP).
  eauto.
Qed.

Lemma prerendered_never_invokes_template_sandbox_witness :
  exists evs,
    trace (run (component Sample.world
                  (Sample.render_req "greeter" (VStr "2.0.0") (VStr prerendered))
                  Sample.res) (init_state ∅)).2 = [] ++ evs /\
    Forall (fun e => template_sandbox_event e = false) evs.
Proof.
  apply (prerendered_never_invokes_template_sandbox Sample.world
           (Sample.render_req "greeter" (VStr "2.0.0") (VStr prerendered))
           Sample.res (init_state ∅)).
  reflexivity.
Defined.

(** ** Render requests that resolve to a given component *)

Section Resolved.
Variables (w : World) (req : Req) (res : Res) (c : Component).

Let requested : JsVal := js_or (params_componentVersion req) (VStr "").

Hypothesis Hgot :
  cb_arg (repository_getComponent w (params_componentName req) requested)
  = Some c.

(** The component at hand in the body of the handler is [c]. *)
Ltac resolved :=
  match goal with
  | H : match cb_arg _ with Some _ => _ | None => _ end = Value _ |- _ =>
      unfold requested in Hgot; simpl in H; rewrite Hgot in H;
      injection H as <-
  end.

Ltac not_200 := let body := fresh in let H := fresh in
                intros body H; discriminate H.

(** Through the lookup of the component, up to the point where the
    handler holds [c]. *)
Ltac to_resolved :=
  cbv beta zeta;
  sat_step;
  [| sat_step; [sat_steps | sat_step; [resolved |]]].

Lemma returnComponent_empty_data rc params :
  sat (fun e => data_path_event e = false /\ renders_with (VObj []) e)
      (responds_with_data req (VObj []))
      (fun _ => True)
      (returnComponent w req res c rc params VNull (VObj [])).
Proof.
  unfold returnComponent. simpl truthy.
  sat_steps; try done; try not_200.
  - intros body [= <-] _. reflexivity.
  - intros body _ Ha. rewrite Ha in *. discriminate.
  - intros body _ Ha. rewrite Ha in *. discriminate.
Qed.

Lemma component_empty_data :
  truthy (files_dataProvider (oc_files (component_oc c))) = false ->
  sat (fun e => data_path_event e = false /\ renders_with (VObj []) e)
      (responds_with_data req (VObj []))
      (fun _ => True)
      (component w req res).
Proof.
  intros Hnone. unfold component.
  to_resolved; try done; try not_200.
  rewrite Hnone. simpl negb.
  sat_steps; try done; try not_200.
  apply returnComponent_empty_data.
Qed.

Lemma returnComponent_response_fields params err data :
  sat (fun _ => True)
      (response_fields w res c requested params)
      (fun _ => True)
      (returnComponent w req res c
         {| rc_name := params_componentName req;
            rc_version := requested;
            rc_parameters := req_query req |} params err data).
Proof.
  unfold returnComponent.
  sat_steps; try done; try not_200;
    intros body [= <-]; repeat split; reflexivity.
Qed.

Lemma component_response_fields :
  sat (fun _ => True)
      (response_fields w res c requested
         (sanitiser_sanitiseComponentParameters w (req_query req)
            (oc_parameters (component_oc c))))
      (fun _ => True)
      (component w req res).
Proof.
  unfold component.
  to_resolved; try done; try not_200.
  sat_steps; try done; try not_200;
    apply returnComponent_response_fields.
Qed.

Lemma returnComponent_sandbox rc params err data :
  sat (sandbox_call_ok w res c) (fun _ => True) (fun _ => True)
      (returnComponent w req res c rc params err data).
Proof.
  unfold returnComponent.
  sat_steps; try done; simpl; eauto 8.
Qed.

Lemma component_sandbox :
  sat (sandbox_call_ok w res c) (fun _ => True) (fun _ => True)
      (component w req res).
Proof.
  unfold component.
  to_resolved; try done.
  sat_steps; try done; try apply returnComponent_sandbox; simpl; eauto 8.
Qed.

End Resolved.

Lemma RequireWrapper_outside_allow_list deps m :
  binds m deps = false -> RequireWrapper deps m = Throws (VStr m).
Proof.
  unfold RequireWrapper, binds.
  induction deps as [| [k v] deps IH]; simpl; [done |].
  destruct (String.eqb m k); simpl; [done | exact IH].
Qed.

(** C9. A sandboxed execution is given an explicitly constructed binding
    set and nothing else.  Every vm execution made by the render handler
    runs in one of two contexts: the data-provider context, whose bindings
    are exactly [require] (the allow-list loader built from the injected
    dependencies, which fails the load of any other module), [module]
    (with an empty [exports] table) and [console]; or the template
    context, whose only binding is the templating runtime.  What is kept
    of an execution is the [data] export of the data-provider, or the
    function found under the hash key declared by the component's
    template. *)
Theorem sandbox_exposes_only_constructed_bindings
    (w : World) (req : Req) (res : Res) (s : St) (c : Component) :
  cb_arg (repository_getComponent w (params_componentName req)
            (js_or (params_componentVersion req) (VStr ""))) = Some c ->
  (exists evs,
     trace (run (component w req res) s).2 = trace s ++ evs /\
     Forall (sandbox_call_ok w res c) evs) /\
  map fst (dataProvider_context res) = ["require"; "module"; "console"] /\
  obj_get "require" (dataProvider_context res)
  = VRequireWrapper (res_injectedDependencies res) /\
  (forall m, binds m (res_injectedDependencies res) = false ->
             RequireWrapper (res_injectedDependencies res) m
             = Throws (VStr m)) /\
  obj_get "module" (dataProvider_context res) = VObj [("exports", VObj [])] /\
  obj_get "console" (dataProvider_context res)
  = (if conf_local (res_conf res) then VConsole else VObj [("log", VNoop)]) /\
  map fst template_context = ["jade"] /\
  obj_get "jade" template_context = VJadeRuntime.
Proof.
  intros Hgot. split.
  - destruct (sat_run _ _ (component w req res) s
                (component_sandbox w req res c Hgot))
      as (_ & evs & Ht & _ & HP).
    eauto.
  - repeat split. intros m. apply RequireWrapper_outside_allow_list.
Qed.

Lemma sandbox_exposes_only_constructed_bindings_witness :
  exists evs,
    trace (run (component Sample.world
                  (Sample.render_req "greeter" (VStr "2.0.0") VUndefined)
                  Sample.res) (init_state ∅)).2 = [] ++ evs /\
    Forall (sandbox_call_ok Sample.world Sample.res Sample.greeter) evs.
Proof.
  apply (sandbox_exposes_only_constructed_bindings Sample.world
           (Sample.render_req "greeter" (VStr "2.0.0") VUndefined)
           Sample.res (init_state ∅) Sample.greeter).
  reflexivity.
Defined.

(** C10. In a successful render response the [href] is built by the url
    builder from the component's name, the version string as it was
    requested (the empty string when the request gave none) and the
    sanitised parameters, not from the resolved version; [version] is the
    resolved version and [requestVersion] the requested string.  Hence two
    requests that resolve to the same version get different hrefs
    whenever the url builder tells their requested versions apart. *)
Theorem href_is_built_from_requested_version :
  (forall (w : World) (req : Req) (res : Res) (s : St) (c : Component),
      cb_arg (repository_getComponent w (params_componentName req)
                (js_or (params_componentVersion req) (VStr ""))) = Some c ->
      response_fields w res c
        (js_or (params_componentVersion req) (VStr ""))
        (sanitiser_sanitiseComponentParameters w (req_query req)
           (oc_parameters (component_oc c)))
        (run (component w req res) s).1) /\
  (forall (w : World) (res : Res) (req1 req2 : Req) (s1 s2 : St)
          (c : Component) (body1 body2 : JsVal),
      cb_arg (repository_getComponent w (params_componentName req1)
                (js_or (params_componentVersion req1) (VStr ""))) = Some c ->
      cb_arg (repository_getComponent w (params_componentName req2)
                (js_or (params_componentVersion req2) (VStr ""))) = Some c ->
      (run (component w req1 res) s1).1 = Responded 200 body1 ->
      (run (component w req2 res) s2).1 = Responded 200 body2 ->
      urlBuilder_component w
        (href_source c (js_or (params_componentVersion req1) (VStr ""))
           (sanitiser_sanitiseComponentParameters w (req_query req1)
              (oc_parameters (component_oc c))))
        (conf_baseUrl (res_conf res))
      <> urlBuilder_component w
           (href_source c (js_or (params_componentVersion req2) (VStr ""))
              (sanitiser_sanitiseComponentParameters w (req_query req2)
                 (oc_parameters (component_oc c))))
           (conf_baseUrl (res_conf res)) ->
      get_prop body1 "version" = get_prop body2 "version" /\
      get_prop body1 "href" <> get_prop body2 "href").
Proof.
  assert (Hfields :
    forall w req res s c,
      cb_arg (repository_getComponent w (params_componentName req)
                (js_or (params_componentVersion req) (VStr ""))) = Some c ->
      response_fields w res c
        (js_or (params_componentVersion req) (VStr ""))
        (sanitiser_sanitiseComponentParameters w (req_query req)
           (oc_parameters (component_oc c)))
        (run (component w req res) s).1).
  { intros w req res s c Hgot.
    apply (sat_run _ _ (component w req res) s
             (component_response_fields w req res c Hgot)). }
  split; [exact Hfields |].
  intros w res req1 req2 s1 s2 c body1 body2 Hgot1 Hgot2 Hrun1 Hrun2 Hne.
  destruct (Hfields w req1 res s1 c Hgot1 body1 Hrun1) as (Hh1 & Hv1 & _).
  destruct (Hfields w req2 res s2 c Hgot2 body2 Hrun2) as (Hh2 & Hv2 & _).
  split; [congruence |].
  rewrite Hh1, Hh2. intros [= Heq]. by apply Hne.
Qed.

Lemma href_is_built_from_requested_version_witness :
  get_prop
    (VObj [("href", VStr "http://registry.example.org/banner/");
           ("type", VStr "oc-component"); ("version", VStr "1.0.0");
           ("requestVersion", VStr "");
           ("html", VStr "<div>banner</div>");
           ("renderMode", VStr "rendered")]) "version"
  = get_prop
      (VObj [("href", VStr "http://registry.example.org/banner/1.0.0");
             ("type", VStr "oc-component"); ("version", VStr "1.0.0");
             ("requestVersion", VStr "1.0.0");
             ("html", VStr "<div>banner</div>");
             ("renderMode", VStr "rendered")]) "version" /\
  get_prop
    (VObj [("href", VStr "http://registry.example.org/banner/");
           ("type", VStr "oc-component"); ("version", VStr "1.0.0");
           ("requestVersion", VStr "");
           ("html", VStr "<div>banner</div>");
           ("renderMode", VStr "rendered")]) "href"
  <> get_prop
       (VObj [("href", VStr "http://registry.example.org/banner/1.0.0");
              ("type", VStr "oc-component"); ("version", VStr "1.0.0");
              ("requestVersion", VStr "1.0.0");
              ("html", VStr "<div>banner</div>");
              ("renderMode", VStr "rendered")]) "href".
Proof.
  apply (proj2 href_is_built_from_requested_version Sample.world Sample.res
           (Sample.render_req "banner" VUndefined VUndefined)
           (Sample.render_req "banner" (VStr "1.0.0") VUndefined)
           (init_state ∅) (init_state ∅) Sample.banner).
  - reflexivity.
  - reflexivity.
  - vm_compute. reflexivity.
  - vm_compute. reflexivity.
  - vm_compute. discriminate.
Defined.

(** ** The publish workflow *)

(** Unfolding the handler monad on a state. *)
Ltac exec :=
  unfold run, finish, bind, log, set_errorDetails, res_json, lift, ret, throw,
    pending, cache_get, cache_set;
  simpl.

(** C6. The validation stage of a publish answers 409 before any
    extraction or repository call: first when the component name or the
    version is missing ("malformed request"), then when the version is not
    a valid one, then when the uploaded package fails the package
    validator.  In each case nothing is added to the log of calls, so the
    archive is extracted (and the repository called) only after the three
    checks have passed, in that order. *)
Theorem publish_validates_before_extraction
    (w : World) (req : Req) (res : Res) (s : St) :
  (truthy (params_componentName req) = false \/
   truthy (params_componentVersion req) = false ->
   (run (publish w req res) s).1
   = Responded 409 (VObj [("error", VStr "malformed request")]) /\
   trace (run (publish w req res) s).2 = trace s) /\
  (truthy (params_componentName req) = true ->
   truthy (params_componentVersion req) = true ->
   validator_validateVersion w (params_componentVersion req) = false ->
   (run (publish w req res) s).1
   = Responded 409 (VObj [("error", VStr "not a valid version")]) /\
   trace (run (publish w req res) s).2 = trace s) /\
  (truthy (params_componentName req) = true ->
   truthy (params_componentVersion req) = true ->
   validator_validateVersion w (params_componentVersion req) = true ->
   validator_validatePackage w (req_files req) = false ->
   (run (publish w req res) s).1
   = Responded 409 (VObj [("error", VStr "package is not valid")]) /\
   trace (run (publish w req res) s).2 = trace s) /\
  (forall evs,
      trace (run (publish w req res) s).2 = trace s ++ evs ->
      Exists (fun e => publish_io_event e = true) evs ->
      truthy (params_componentName req) = true /\
      truthy (params_componentVersion req) = true /\
      validator_validateVersion w (params_componentVersion req) = true /\
      validator_validatePackage w (req_files req) = true).
Proof.
  assert (H1 :
    truthy (params_componentName req) = false \/
    truthy (params_componentVersion req) = false ->
    (run (publish w req res) s).1
    = Responded 409 (VObj [("error", VStr "malformed request")]) /\
    trace (run (publish w req res) s).2 = trace s).
  { intros Hm. unfold publish.
    replace (negb (truthy (params_componentName req))
             || negb (truthy (params_componentVersion req))) with true
      by (destruct Hm as [-> | ->]; simpl; by rewrite ?orb_true_r).
    exec. done. }
  assert (H2 :
    truthy (params_componentName req) = true ->
    truthy (params_componentVersion req) = true ->
    validator_validateVersion w (params_componentVersion req) = false ->
    (run (publish w req res) s).1
    = Responded 409 (VObj [("error", VStr "not a valid version")]) /\
    trace (run (publish w req res) s).2 = trace s).
  { intros Hn Hv Hvv. unfold publish. rewrite Hn, Hv, Hvv. exec. done. }
  assert (H3 :
    truthy (params_componentName req) = true ->
    truthy (params_componentVersion req) = true ->
    validator_validateVersion w (params_componentVersion req) = true ->
    validator_validatePackage w (req_files req) = false ->
    (run (publish w req res) s).1
    = Responded 409 (VObj [("error", VStr "package is not valid")]) /\
    trace (run (publish w req res) s).2 = trace s).
  { intros Hn Hv Hvv Hvp. unfold publish. rewrite Hn, Hv, Hvv, Hvp. exec. done. }
  split; [exact H1 | split; [exact H2 | split; [exact H3 |]]].
  intros evs Ht Hex.
  assert (Hnil : evs <> []) by (intros ->; by apply Exists_nil in Hex).
  assert (Hsame : trace (run (publish w req res) s).2 = trace s -> False).
  { intros Hs. rewrite Hs in Ht.
    rewrite <- (app_nil_r (trace s)) in Ht at 1.
    apply app_inv_head in Ht. by apply Hnil. }
  destruct (truthy (params_componentName req)) eqn:Hn;
    [| destruct Hsame; apply H1; by left].
  destruct (truthy (params_componentVersion req)) eqn:Hv;
    [| destruct Hsame; apply H1; by right].
  destruct (validator_validateVersion w (params_componentVersion req))
    eqn:Hvv; [| destruct Hsame; by apply H2].
  destruct (validator_validatePackage w (req_files req)) eqn:Hvp;
    [| destruct Hsame; by apply H3].
  done.
Qed.

Lemma publish_validates_before_extraction_witness :
  (run (publish Sample.world
          (Sample.publish_req (VStr "banner") (VStr "latest") "banner.tar.gz")
          Sample.res) (init_state ∅)).1
  = Responded 409 (VObj [("error", VStr "not a valid version")]) /\
  trace (run (publish Sample.world
                (Sample.publish_req (VStr "banner") (VStr "latest")
                   "banner.tar.gz")
                Sample.res) (init_state ∅)).2 = [].
Proof.
  apply (publish_validates_before_extraction Sample.world
           (Sample.publish_req (VStr "banner") (VStr "latest") "banner.tar.gz")
           Sample.res (init_state ∅));
    reflexivity.
Defined.

Lemma truthy_get_prop v k :
  truthy v = true -> exists x, get_prop v k = Value x.
Proof. destruct v; simpl; try done; eauto. Qed.

(** C5. Once a publish request has passed validation, the outcome of the
    extraction and of the repository's publish operation determines the
    answer: an extraction failure gives 500 with the decompression error
    in [details]; a repository failure gives 403 for [not_allowed], 403
    for [already_exists], 409 for [name_not_valid] and 500 for any other
    failure, each with the repository's message; success gives 200 with
    [ok: true]. *)
Theorem publish_maps_outcomes_to_statuses
    (w : World) (req : Req) (res : Res) (s : St)
    (field : string) (packageFile : UploadedFile)
    (others : list (string * UploadedFile)) :
  truthy (params_componentName req) = true ->
  truthy (params_componentVersion req) = true ->
  validator_validateVersion w (params_componentVersion req) = true ->
  validator_validatePackage w (req_files req) = true ->
  req_files req = (field, packageFile) :: others ->
  let packagePath := path_resolve w [file_path packageFile] in
  let packageUntarOutput :=
    path_resolve w [file_path packageFile; "..";
                    replace_first ".tar.gz" "" (file_name packageFile)] in
  let packageOutput := path_resolve w [packageUntarOutput; "_package"] in
  let extraction := targz_extract w packagePath packageUntarOutput in
  let failure :=
    cb_err (repository_publishComponent w packageOutput
              (params_componentName req) (params_componentVersion req)) in
  let outcome := (run (publish w req res) s).1 in
  (truthy extraction = true ->
   outcome = Responded 500 (VObj [("error", VStr "package file is not valid");
                                  ("details", extraction)])) /\
  (truthy extraction = false -> truthy failure = false ->
   outcome = Responded 200 (VObj [("ok", VBool true)])) /\
  (truthy extraction = false -> truthy failure = true ->
   exists code msg,
     get_prop failure "code" = Value code /\
     get_prop failure "msg" = Value msg /\
     (code = VStr "not_allowed" ->
      outcome = Responded 403 (VObj [("error", msg)])) /\
     (code = VStr "already_exists" ->
      outcome = Responded 403 (VObj [("error", msg)])) /\
     (code = VStr "name_not_valid" ->
      outcome = Responded 409 (VObj [("error", msg)])) /\
     (code <> VStr "not_allowed" -> code <> VStr "already_exists" ->
      code <> VStr "name_not_valid" ->
      outcome = Responded 500 (VObj [("error", msg)]))).
Proof.
  intros Hn Hv Hvv Hvp Hfiles packagePath packageUntarOutput packageOutput
    extraction failure outcome.
  subst outcome failure extraction packageOutput packageUntarOutput packagePath.
  unfold publish.
  rewrite Hn, Hv, Hvv, Hvp, Hfiles. cbv beta zeta.
  split; [| split].
  - intros He. exec. rewrite He. done.
  - intros He Hf. exec. rewrite He. simpl. rewrite Hf. done.
  - intros He Hf.
    destruct (truthy_get_prop _ "code" Hf) as [code Hcode].
    destruct (truthy_get_prop _ "msg" Hf) as [msg Hmsg].
    exists code, msg.
    split; [done |]. split; [done |].
    exec. rewrite He. simpl. rewrite Hf, Hcode. simpl. rewrite Hmsg. simpl.
    repeat split.
    + by intros ->.
    + by intros ->.
    + by intros ->.
    + intros H1 H2 H3.
      assert (Hs : forall lit, code <> VStr lit -> strict_eq_str code lit = false).
      { intros lit Hne. destruct code; simpl; try done.
        apply String.eqb_neq. congruence. }
      rewrite !Hs by done. done.
Qed.

Lemma publish_maps_outcomes_to_statuses_witness :
  exists code msg,
    get_prop (VObj [("code", VStr "already_exists");
                    ("msg", VStr "Component already exists")]) "code"
    = Value code /\
    get_prop (VObj [("code", VStr "already_exists");
                    ("msg", VStr "Component already exists")]) "msg"
    = Value msg /\
    (code = VStr "already_exists" ->
     (run (publish Sample.world
             (Sample.publish_req (VStr "banner") (VStr "1.0.0") "banner.tar.gz")
             Sample.res) (init_state ∅)).1
     = Responded 403 (VObj [("error", msg)])).
Proof.
  destruct (proj2 (proj2
    (publish_maps_outcomes_to_statuses Sample.world
       (Sample.publish_req (VStr "banner") (VStr "1.0.0") "banner.tar.gz")
       Sample.res (init_state ∅) "package"
       {| file_path := "/tmp/banner.tar.gz"; file_name := "banner.tar.gz" |}
       [] eq_refl eq_refl eq_refl eq_refl eq_refl)) eq_refl eq_refl)
    as (code & msg & Hc & Hm & _ & Hexists & _).
  exists code, msg. auto.
Defined.

(** ** Running a handler step by step *)

Lemma run_bind_log {B} e (k : unit -> M B) s :
  bind (log e) k s = k tt (logged e s).
Proof. reflexivity. Qed.

Lemma run_bind_set_errorDetails {B} v (k : unit -> M B) s :
  bind (set_errorDetails v) k s
  = k tt {| cache := cache s; trace := trace s; errorDetails := v |}.
Proof. reflexivity. Qed.

Lemma run_bind_cache_get {B} type key (k : JsVal -> M B) s :
  bind (cache_get type key) k s
  = k (default VUndefined (cache s !! (type, key))) (logged (CacheGet type key) s).
Proof. reflexivity. Qed.

Lemma run_bind_cache_set {B} type key data (k : unit -> M B) s :
  bind (cache_set type key data) k s
  = k tt (logged (CacheSet type key data)
            {| cache := cache_store type key data (cache s);
               trace := trace s;
               errorDetails := errorDetails s |}).
Proof. reflexivity. Qed.

Lemma run_bind_lift_value {A B} (a : A) (k : A -> M B) s :
  bind (lift (Value a)) k s = k a s.
Proof. reflexivity. Qed.

Lemma run_bind_lift_throws {A B} e (k : A -> M B) s :
  bind (lift (Throws e)) k s = (Stop (Uncaught e), s).
Proof. reflexivity. Qed.

Lemma run_bind_runInNewContext {B} w code context (k : Obj -> M B) s :
  bind (runInNewContext w code context) k s
  = match vm_runInNewContext w code context with
    | VmThrows e => (Stop (Uncaught e), logged (VmRunInNewContext code context) s)
    | VmDone context' => k context' (logged (VmRunInNewContext code context) s)
    end.
Proof.
  unfold runInNewContext, bind, log.
  by destruct (vm_runInNewContext w code context).
Qed.

Lemma run_bind_call {B} w f reqObj (k : Cb JsVal -> M B) s :
  bind (call w f reqObj) k s
  = bind (await (applied w f reqObj)) k (logged (CallFunction f reqObj) s).
Proof. reflexivity. Qed.

Lemma run_bind_await {B} a (k : Cb JsVal -> M B) s :
  bind (await a) k s
  = match a with
    | Calls err v => k {| cb_err := err; cb_arg := v |} s
    | ThrowsSync e => (Stop (Uncaught e), s)
    | Silent => (Stop NoResponse, s)
    end.
Proof. by destruct a. Qed.

Lemma run_bind_await_calls {B} err v (k : Cb JsVal -> M B) s :
  bind (await (Calls err v)) k s = k {| cb_err := err; cb_arg := v |} s.
Proof. reflexivity. Qed.

Lemma run_bind_await_throws {B} e (k : Cb JsVal -> M B) s :
  bind (await (ThrowsSync e)) k s = (Stop (Uncaught e), s).
Proof. reflexivity. Qed.

Lemma run_bind_await_silent {B} (k : Cb JsVal -> M B) s :
  bind (await Silent) k s = (Stop NoResponse, s).
Proof. reflexivity. Qed.

(** One step of the run in [H] that does not branch. *)
Ltac run_rewrite H :=
  first
    [ rewrite run_bind_log in H
    | rewrite run_bind_set_errorDetails in H
    | rewrite run_bind_cache_get in H
    | rewrite run_bind_cache_set in H
    | rewrite run_bind_lift_value in H
    | rewrite run_bind_lift_throws in H
    | rewrite run_bind_runInNewContext in H
    | rewrite run_bind_call in H
    | rewrite run_bind_await_calls in H
    | rewrite run_bind_await_throws in H
    | rewrite run_bind_await_silent in H
    | progress unfold returnResult in H
    | progress cbv beta zeta in H ].

(** One step of the run in [H], branching on the value that is called
    and on what the collaborators answer. *)
Ltac run_branch H :=
  match type of H with
  | context [applied _ ?f _] =>
      first [ progress cbn [applied] in H
            | destruct f eqn:?; cbn [applied] in H ]
  | context [match RequireWrapper ?deps ?name with _ => _ end] =>
      destruct (RequireWrapper deps name) eqn:?
  | context [bind (await ?a)] => rewrite run_bind_await in H
  | context [bind (lift ?x)] =>
      lazymatch x with
      | Value _ => fail
      | Throws _ => fail
      | _ => destruct x eqn:?
      end
  | context [if ?b then _ else _] =>
      lazymatch b with
      | true => fail
      | false => fail
      | _ => destruct b eqn:?
      end
  | context [match ?x with _ => _ end] => destruct x eqn:?
  end.

Ltac run_cases H := first [run_rewrite H | run_branch H].

(** The state in which a handler stops. *)
Ltac stopped :=
  unfold res_json, throw, pending;
  cbn [finish fst snd trace cache logged]; rewrite <- ?app_assoc;
  cbn [app]; try reflexivity.

(** ** Cache keys *)

Lemma format_server_key w c :
  format w "{0}/{1}/server.js"
    [VStr (component_name c); VStr (component_version c)]
  = artifact_key c "server.js".
Proof. reflexivity. Qed.

Lemma format_template_key w c :
  format w "{0}/{1}/template.js"
    [VStr (component_name c); VStr (component_version c)]
  = artifact_key c "template.js".
Proof. reflexivity. Qed.

Lemma string_app_inv_head (p a b : string) : p +:+ a = p +:+ b -> a = b.
Proof. induction p as [| ch p IH]; simpl; [done |]. intros [= H]. auto. Qed.

Lemma artifact_key_kinds c : artifact_key c "template.js" <> artifact_key c "server.js".
Proof.
  unfold artifact_key. intros H.
  do 4 apply string_app_inv_head in H. discriminate.
Qed.

(** ** What [cache.set] stores *)

Lemma cache_store_truthy (type key : string) (data : JsVal)
    (c : gmap (string * string) JsVal) :
  truthy data = true -> cache_store type key data c = <[(type, key) := data]> c.
Proof. unfold cache_store. by intros ->. Qed.

Lemma cache_store_falsy (type key : string) (data : JsVal)
    (c : gmap (string * string) JsVal) :
  truthy data = false ->
  cache_store type key data c = <[("__notype__", type) := VStr key]> c.
Proof. unfold cache_store. by intros ->. Qed.

Lemma cache_store_other (type key : string) (data : JsVal)
    (c : gmap (string * string) JsVal) (entry : string * string) :
  entry <> (type, key) -> entry <> ("__notype__", type) ->
  cache_store type key data c !! entry = c !! entry.
Proof.
  intros H1 H2. unfold cache_store.
  destruct (truthy data); by apply lookup_insert_ne.
Qed.

Lemma cache_store_kept (type key : string) (data : JsVal)
    (c : gmap (string * string) JsVal) (entry : string * string) :
  is_Some (c !! entry) -> is_Some (cache_store type key data c !! entry).
Proof.
  intros Hc. unfold cache_store.
  destruct (truthy data).
  - destruct (decide ((type, key) = entry)) as [<- | Hne].
    + rewrite lookup_insert_eq. eauto.
    + by rewrite lookup_insert_ne.
  - destruct (decide (("__notype__", type) = entry)) as [<- | Hne].
    + rewrite lookup_insert_eq. eauto.
    + by rewrite lookup_insert_ne.
Qed.

Lemma fold_apply_event_other (evs : list Event) c type key :
  type <> "__notype__" ->
  Forall (keeps_entry type key) evs ->
  fold_left apply_event evs c !! (type, key) = c !! (type, key).
Proof.
  intros Htype.
  revert c. induction evs as [| e evs IH]; intros c Hall; [done |].
  apply Forall_cons in Hall as [He Hall]. simpl. rewrite IH by done.
  destruct e; simpl; try done.
  apply cache_store_other.
  - intros [= -> ->]. by apply (He data).
  - intros [= -> _]. by apply Htype.
Qed.

(** ** The artifact cache *)

Section DataProviderArtifact.
Variables (w : World) (req : Req) (res : Res) (c : Component).

Let requested : JsVal := js_or (params_componentVersion req) (VStr "").
Let params : JsVal :=
  sanitiser_sanitiseComponentParameters w (req_query req)
    (oc_parameters (component_oc c)).
Let got := repository_getComponent w (params_componentName req) requested.

Lemma returnComponent_keeps_data_artifact rc ps err data :
  sat (fun e => data_compile_event e = false /\
                keeps_entry "file-contents" (artifact_key c "server.js") e)
      (fun _ => True) (fun _ => True)
      (returnComponent w req res c rc ps err data).
Proof.
  unfold returnComponent. rewrite format_template_key.
  sat_steps; try done.
  split; [done |]. intros ? [= Hk]. by apply artifact_key_kinds in Hk.
Qed.

Lemma call_then_returnComponent_keeps f reqObj rc ps :
  sat (fun e => data_compile_event e = false /\
                keeps_entry "file-contents" (artifact_key c "server.js") e)
      (fun _ => True) (fun _ => True)
      (r <- await (applied w f reqObj) ;;
       returnComponent w req res c rc ps (cb_err r) (cb_arg r)).
Proof.
  sat_steps; try done. apply returnComponent_keeps_data_artifact.
Qed.

Lemma returnComponent_any rc ps err data :
  sat (fun _ => True) (fun _ => True) (fun _ => True)
      (returnComponent w req res c rc ps err data).
Proof.
  eapply sat_weaken; [| | | apply returnComponent_keeps_data_artifact]; done.
Qed.

(** The run of the rest of a handler adds to the calls made so far. *)
Ltac continue_any :=
  match goal with
  | |- context [finish (?h ?s')] =>
      let Hs := fresh "Hs" in
      let evs := fresh "evs" in
      let Ht := fresh "Ht" in
      assert (Hs : sat (fun _ => True) (fun _ => True) (fun _ => True) h)
        by (sat_steps; try done; apply returnComponent_any);
      destruct (sat_run _ _ h s' Hs) as (_ & evs & Ht & _ & _);
      unfold run in Ht; rewrite Ht;
      cbn [trace logged]; rewrite <- ?app_assoc;
      exists evs
  end.

(** A handler's run from a state reached after some calls: the calls it
    adds, and the cache entry of the data-provider. *)
Ltac continue_with Hsat :=
  match goal with
  | |- context [finish (?h ?s')] =>
      let evs := fresh "evs" in
      let Ht := fresh "Ht" in
      let Hc := fresh "Hc" in
      let HP := fresh "HP" in
      destruct (sat_run _ _ h s' Hsat) as (_ & evs & Ht & Hc & HP);
      unfold run in Ht, Hc; rewrite Ht, Hc;
      cbn [trace cache logged]; rewrite <- ?app_assoc;
      apply Forall_and in HP as [? ?]
  end.

Hypothesis Hfound : truthy (cb_err got) = false.
Hypothesis Hgot : cb_arg got = Some c.
Hypothesis Hvalid :
  isValid (validator_validateComponentParameters w params
             (oc_parameters (component_oc c))) = true.
Hypothesis Hprovider :
  truthy (files_dataProvider (oc_files (component_oc c))) = true.

(** Through the lookup and the validation, up to the cache lookup of the
    data-provider. *)
Ltac to_data_provider :=
  unfold got, params, requested in *;
  unfold run, component; cbv beta zeta;
  cbn [rc_name rc_version rc_parameters];
  rewrite run_bind_log;
  rewrite Hfound, Hgot, run_bind_lift_value;
  rewrite Hvalid, Hprovider; cbn [negb];
  rewrite format_server_key, run_bind_cache_get;
  cbn [cache logged].

Lemma data_provider_hit s f :
  conf_local (res_conf res) = false ->
  cache s !! ("file-contents", artifact_key c "server.js") = Some f ->
  truthy f = true ->
  exists reqObj evs,
    trace (run (component w req res) s).2
    = trace s ++ [RepoGetComponent (params_componentName req) requested;
                  CacheGet "file-contents" (artifact_key c "server.js");
                  CallFunction f reqObj] ++ evs /\
    Forall (fun e => data_compile_event e = false) evs /\
    cache (run (component w req res) s).2
      !! ("file-contents", artifact_key c "server.js") = Some f.
Proof.
  intros Hlocal Hcached Hf.
  to_data_provider. rewrite Hcached.
  change (default VUndefined (Some f)) with f.
  rewrite Hf, Hlocal. cbn [negb andb].
  rewrite run_bind_call.
  continue_with (call_then_returnComponent_keeps f
    (reqObj w req (res_conf res) c
       (sanitiser_sanitiseComponentParameters w (req_query req)
          (oc_parameters (component_oc c))))
    {| rc_name := params_componentName req;
       rc_version := js_or (params_componentVersion req) (VStr "");
       rc_parameters := req_query req |}
    (sanitiser_sanitiseComponentParameters w (req_query req)
       (oc_parameters (component_oc c)))).
  eexists _, evs. split; [reflexivity |]. split; [done |].
  by rewrite fold_apply_event_other.
Qed.


Lemma data_provider_recompiled s :
  conf_local (res_conf res) = true \/
  truthy (default VUndefined
            (cache s !! ("file-contents", artifact_key c "server.js")))
  = false ->
  (exists evs,
      trace (run (component w req res) s).2
      = trace s ++ [RepoGetComponent (params_componentName req) requested;
                    CacheGet "file-contents" (artifact_key c "server.js");
                    RepoGetDataProvider (component_name c)
                      (component_version c)] ++ evs) /\
  (forall context' artifact,
      let fetched := repository_getDataProvider w (component_name c)
                       (component_version c) in
      truthy (cb_err fetched) = false ->
      vm_runInNewContext w (cb_arg fetched) (dataProvider_context res)
      = VmDone context' ->
      context_module_exports_data context' = Value artifact ->
      exists reqObj evs,
        trace (run (component w req res) s).2
        = trace s ++ [RepoGetComponent (params_componentName req) requested;
                      CacheGet "file-contents" (artifact_key c "server.js");
                      RepoGetDataProvider (component_name c)
                        (component_version c);
                      VmRunInNewContext (cb_arg fetched)
                        (dataProvider_context res);
                      CacheSet "file-contents" (artifact_key c "server.js")
                        artifact;
                      CallFunction artifact reqObj] ++ evs /\
        Forall (fun e => data_compile_event e = false) evs /\
        cache (run (component w req res) s).2
          !! ("file-contents", artifact_key c "server.js")
        = if truthy artifact then Some artifact
          else cache s !! ("file-contents", artifact_key c "server.js")).
Proof.
  intros Hmiss.
  assert (Hbranch :
    truthy (default VUndefined
              (cache s !! ("file-contents", artifact_key c "server.js")))
    && negb (conf_local (res_conf res)) = false).
  { destruct Hmiss as [-> | ->]; [apply andb_false_r | done]. }
  split.
  - to_data_provider. rewrite Hbranch, run_bind_log.
    continue_any. reflexivity.
  - intros context' artifact fetched Herr Hvm Hdata. subst fetched.
    to_data_provider. rewrite Hbranch, run_bind_log.
    rewrite Herr, run_bind_runInNewContext, Hvm, Hdata.
    rewrite run_bind_lift_value, run_bind_cache_set, run_bind_call.
    continue_with (call_then_returnComponent_keeps artifact
      (reqObj w req (res_conf res) c
         (sanitiser_sanitiseComponentParameters w (req_query req)
            (oc_parameters (component_oc c))))
      {| rc_name := params_componentName req;
         rc_version := js_or (params_componentVersion req) (VStr "");
         rc_parameters := req_query req |}
      (sanitiser_sanitiseComponentParameters w (req_query req)
         (oc_parameters (component_oc c)))).
    eexists _, evs. split; [reflexivity |]. split; [done |].
    rewrite fold_apply_event_other by done. unfold cache_store.
    destruct (truthy artifact);
      [apply lookup_insert_eq | by apply lookup_insert_ne].
Qed.


End DataProviderArtifact.

Section TemplateArtifact.
Variables (w : World) (req : Req) (res : Res) (c : Component)
          (rc : RequestedComponent) (ps err data : JsVal) (s : St).

Hypothesis Herr : truthy err = false.
Hypothesis Hrendered : strict_eq_str (headers_accept req) prerendered = false.

Let key : string := template_hashKey (files_template (oc_files (component_oc c))).
Let text : JsVal :=
  cb_arg (repository_getCompiledView w (component_name c) (component_version c)).

(** Up to the cache lookup of the compiled view. *)
Ltac to_template :=
  unfold key, text in *;
  unfold run, returnComponent; rewrite Herr, Hrendered; cbv beta zeta;
  rewrite format_template_key, run_bind_cache_get.

(** The state in which a handler stops, as a list of calls. *)
Ltac final_state :=
  unfold res_json, throw, pending;
  cbn [finish snd trace cache logged]; rewrite <- ?app_assoc;
  cbn [app]; try reflexivity.

Lemma template_hit t :
  conf_local (res_conf res) = false ->
  cache s !! ("file-contents", artifact_key c "template.js") = Some t ->
  truthy t = true ->
  exists options,
    trace (run (returnComponent w req res c rc ps err data) s).2
    = trace s ++ [CacheGet "file-contents" (artifact_key c "template.js");
                  ClientRenderTemplate t data options] /\
    cache (run (returnComponent w req res c rc ps err data) s).2 = cache s.
Proof.
  intros Hlocal Hcached Ht.
  to_template. rewrite Hcached.
  change (default VUndefined (Some t)) with t.
  rewrite Ht, Hlocal. cbn [negb andb].
  unfold returnResult. rewrite run_bind_log, run_bind_await.
  eexists.
  destruct (client_renderTemplate w t data _); split; final_state.
Qed.

Lemma template_recompiled :
  conf_local (res_conf res) = true \/
  truthy (default VUndefined
            (cache s !! ("file-contents", artifact_key c "template.js")))
  = false ->
  (exists evs,
      trace (run (returnComponent w req res c rc ps err data) s).2
      = trace s ++ [CacheGet "file-contents" (artifact_key c "template.js");
                    RepoGetCompiledView (component_name c)
                      (component_version c);
                    VmRunInNewContext text template_context] ++ evs) /\
  (forall context' t,
      vm_runInNewContext w text template_context = VmDone context' ->
      context_oc_components context' key = Value t ->
      exists options,
        trace (run (returnComponent w req res c rc ps err data) s).2
        = trace s ++ [CacheGet "file-contents" (artifact_key c "template.js");
                      RepoGetCompiledView (component_name c)
                        (component_version c);
                      VmRunInNewContext text template_context;
                      CacheSet "file-contents"
                        (artifact_key c "template.js") t;
                      ClientRenderTemplate t data options] /\
        cache (run (returnComponent w req res c rc ps err data) s).2
        = if truthy t
          then <[("file-contents", artifact_key c "template.js") := t]>
                 (cache s)
          else <[("__notype__", "file-contents")
                 := VStr (artifact_key c "template.js")]> (cache s)).
Proof.
  intros Hmiss.
  assert (Hbranch :
    truthy (default VUndefined
              (cache s !! ("file-contents", artifact_key c "template.js")))
    && negb (conf_local (res_conf res)) = false).
  { destruct Hmiss as [-> | ->]; [apply andb_false_r | done]. }
  split.
  - to_template. rewrite Hbranch, run_bind_log, run_bind_runInNewContext.
    destruct (vm_runInNewContext w _ template_context) as [e | context'].
    { exists []. final_state. }
    destruct (context_oc_components context' _) as [t | e].
    + rewrite run_bind_lift_value, run_bind_cache_set.
      unfold returnResult. rewrite run_bind_log, run_bind_await.
      eexists.
      destruct (client_renderTemplate w t data _); final_state.
    + rewrite run_bind_lift_throws. exists []. final_state.
  - intros context' t Hvm Htemplate.
    to_template. rewrite Hbranch, run_bind_log, run_bind_runInNewContext.
    rewrite Hvm, Htemplate, run_bind_lift_value, run_bind_cache_set.
    unfold returnResult. rewrite run_bind_log, run_bind_await.
    eexists.
    destruct (client_renderTemplate w t data _); split; final_state.
Qed.


End TemplateArtifact.

(** C4. The artifact cache, for each of the two artifact kinds of a
    component (key name/version/server.js for the compiled data-provider,
    name/version/template.js for the compiled view).

    In production mode, when the cache holds an artifact under the key, the
    handler uses the stored artifact and does not run the compile step (no
    fetch from the repository, no vm execution), and the entry stays as it
    is.  On a miss, and on every request in development (local) mode
    whatever the cache holds, the compile step is run: the source is
    fetched and, once the vm execution has produced the artifact, the
    artifact is stored under the key (replacing what was there) and it is
    the one that is used.  (When the execution leaves a falsy value where
    the artifact is expected, that value is used all the same, and
    [cache.set] stores nothing under the key.) *)
Theorem artifact_cache_by_mode
    (w : World) (req : Req) (res : Res) (c : Component) (s : St) :
  let requested := js_or (params_componentVersion req) (VStr "") in
  let got := repository_getComponent w (params_componentName req) requested in
  let params := sanitiser_sanitiseComponentParameters w (req_query req)
                  (oc_parameters (component_oc c)) in
  let server_js := ("file-contents", artifact_key c "server.js") in
  let template_js := ("file-contents", artifact_key c "template.js") in
  let fetched :=
    repository_getDataProvider w (component_name c) (component_version c) in
  let text :=
    cb_arg (repository_getCompiledView w (component_name c)
              (component_version c)) in
  (truthy (cb_err got) = false ->
   cb_arg got = Some c ->
   isValid (validator_validateComponentParameters w params
              (oc_parameters (component_oc c))) = true ->
   truthy (files_dataProvider (oc_files (component_oc c))) = true ->
   (forall f,
       conf_local (res_conf res) = false ->
       cache s !! server_js = Some f ->
       truthy f = true ->
       exists reqObj evs,
         trace (run (component w req res) s).2
         = trace s ++ [RepoGetComponent (params_componentName req) requested;
                       CacheGet server_js.1 server_js.2;
                       CallFunction f reqObj] ++ evs /\
         Forall (fun e => data_compile_event e = false) evs /\
         cache (run (component w req res) s).2 !! server_js = Some f) /\
   (conf_local (res_conf res) = true \/
    truthy (default VUndefined (cache s !! server_js)) = false ->
    (exists evs,
        trace (run (component w req res) s).2
        = trace s ++ [RepoGetComponent (params_componentName req) requested;
                      CacheGet server_js.1 server_js.2;
                      RepoGetDataProvider (component_name c)
                        (component_version c)] ++ evs) /\
    (forall context' artifact,
        truthy (cb_err fetched) = false ->
        vm_runInNewContext w (cb_arg fetched) (dataProvider_context res)
        = VmDone context' ->
        context_module_exports_data context' = Value artifact ->
        exists reqObj evs,
          trace (run (component w req res) s).2
          = trace s ++ [RepoGetComponent (params_componentName req) requested;
                        CacheGet server_js.1 server_js.2;
                        RepoGetDataProvider (component_name c)
                          (component_version c);
                        VmRunInNewContext (cb_arg fetched)
                          (dataProvider_context res);
                        CacheSet server_js.1 server_js.2 artifact;
                        CallFunction artifact reqObj] ++ evs /\
          Forall (fun e => data_compile_event e = false) evs /\
          cache (run (component w req res) s).2 !! server_js
          = if truthy artifact then Some artifact
            else cache s !! server_js))) /\
  (forall rc ps err data,
      truthy err = false ->
      strict_eq_str (headers_accept req) prerendered = false ->
      (forall t,
          conf_local (res_conf res) = false ->
          cache s !! template_js = Some t ->
          truthy t = true ->
          exists options,
            trace (run (returnComponent w req res c rc ps err data) s).2
            = trace s ++ [CacheGet template_js.1 template_js.2;
                          ClientRenderTemplate t data options] /\
            cache (run (returnComponent w req res c rc ps err data) s).2
            = cache s) /\
      (conf_local (res_conf res) = true \/
       truthy (default VUndefined (cache s !! template_js)) = false ->
       (exists evs,
           trace (run (returnComponent w req res c rc ps err data) s).2
           = trace s ++ [CacheGet template_js.1 template_js.2;
                         RepoGetCompiledView (component_name c)
                           (component_version c);
                         VmRunInNewContext text template_context] ++ evs) /\
       (forall context' t,
           vm_runInNewContext w text template_context = VmDone context' ->
           context_oc_components context'
             (template_hashKey (files_template (oc_files (component_oc c))))
           = Value t ->
           exists options,
             trace (run (returnComponent w req res c rc ps err data) s).2
             = trace s ++ [CacheGet template_js.1 template_js.2;
                           RepoGetCompiledView (component_name c)
                             (component_version c);
                           VmRunInNewContext text template_context;
                           CacheSet template_js.1 template_js.2 t;
                           ClientRenderTemplate t data options] /\
             cache (run (returnComponent w req res c rc ps err data) s).2
             = if truthy t then <[template_js := t]> (cache s)
               else <[("__notype__", "file-contents")
                      := VStr template_js.2]> (cache s)))).
Proof.
  intros requested got params server_js template_js fetched text.
  split.
  - intros Hfound Hgot Hvalid Hprovider. split.
    + intros f. by apply data_provider_hit.
    + by apply data_provider_recompiled.
  - intros rc ps err data Herr Hrendered. split.
    + intros t. by apply template_hit.
    + by apply template_recompiled.
Qed.

Lemma artifact_cache_by_mode_witness :
  exists reqObj evs,
    trace (run (component Sample.world
                  (Sample.render_req "greeter" (VStr "2.0.0") VUndefined)
                  Sample.res)
             (init_state {[ ("file-contents", "greeter/2.0.0/server.js")
                            := VFun 1 ]})).2
    = [] ++ [RepoGetComponent (VStr "greeter") (VStr "2.0.0");
             CacheGet "file-contents" "greeter/2.0.0/server.js";
             CallFunction (VFun 1) reqObj] ++ evs /\
    Forall (fun e => data_compile_event e = false) evs /\
    cache (run (component Sample.world
                  (Sample.render_req "greeter" (VStr "2.0.0") VUndefined)
                  Sample.res)
             (init_state {[ ("file-contents", "greeter/2.0.0/server.js")
                            := VFun 1 ]})).2
      !! ("file-contents", "greeter/2.0.0/server.js") = Some (VFun 1).
Proof.
  apply (proj1 (proj1
    (artifact_cache_by_mode Sample.world
       (Sample.render_req "greeter" (VStr "2.0.0") VUndefined)
       Sample.res Sample.greeter
       (init_state {[ ("file-contents", "greeter/2.0.0/server.js")
                      := VFun 1 ]}))
    eq_refl eq_refl eq_refl eq_refl) (VFun 1));
    reflexivity.
Defined.

(** ** A component without data-provider *)

Section NoDataProvider.
Variables (w : World) (req : Req) (res : Res) (c : Component) (s : St).

Let requested : JsVal := js_or (params_componentVersion req) (VStr "").
Let params : JsVal :=
  sanitiser_sanitiseComponentParameters w (req_query req)
    (oc_parameters (component_oc c)).
Let got := repository_getComponent w (params_componentName req) requested.
Let looked_up : St :=
  logged (RepoGetComponent (params_componentName req) requested) s.
Let rc : RequestedComponent :=
  {| rc_name := params_componentName req;
     rc_version := requested;
     rc_parameters := req_query req |}.
Let key : string := template_hashKey (files_template (oc_files (component_oc c))).
Let text : JsVal :=
  cb_arg (repository_getCompiledView w (component_name c) (component_version c)).

Hypothesis Hfound : truthy (cb_err got) = false.
Hypothesis Hgot : cb_arg got = Some c.
Hypothesis Hvalid :
  isValid (validator_validateComponentParameters w params
             (oc_parameters (component_oc c))) = true.
Hypothesis Hnone :
  truthy (files_dataProvider (oc_files (component_oc c))) = false.

(** After the lookup the handler is [returnComponent(null, {})]. *)
Lemma component_without_data_provider :
  run (component w req res) s
  = run (returnComponent w req res c rc params VNull (VObj [])) looked_up.
Proof.
  unfold got, params, requested, looked_up, rc in *.
  unfold run, component. cbv beta zeta.
  cbn [rc_name rc_version rc_parameters].
  rewrite run_bind_log, Hfound, Hgot, run_bind_lift_value, Hvalid, Hnone.
  reflexivity.
Qed.

Lemma without_data_provider_prerendered :
  headers_accept req = VStr prerendered ->
  run (component w req res) s
  = (Responded 200 (prerendered_body w res c requested params (VObj [])),
     looked_up).
Proof.
  intros Haccept. rewrite component_without_data_provider.
  unfold run, returnComponent. cbn [truthy].
  rewrite (strict_eq_prerendered req Haccept). reflexivity.
Qed.

Lemma without_data_provider_hit t :
  strict_eq_str (headers_accept req) prerendered = false ->
  conf_local (res_conf res) = false ->
  cache s !! ("file-contents", artifact_key c "template.js") = Some t ->
  truthy t = true ->
  exists options,
    trace (run (component w req res) s).2
    = trace s ++ [RepoGetComponent (params_componentName req) requested;
                  CacheGet "file-contents" (artifact_key c "template.js");
                  ClientRenderTemplate t (VObj []) options] /\
    forall err html,
      client_renderTemplate w t (VObj []) options = Calls err html ->
      (run (component w req res) s).1
      = Responded 200 (rendered_body w res c requested params html).
Proof.
  intros Hrendered Hlocal Hcached Ht.
  rewrite component_without_data_provider.
  unfold got, params, requested, looked_up, rc in *.
  unfold run, returnComponent. cbn [truthy]. rewrite Hrendered.
  cbv beta zeta. rewrite format_template_key, run_bind_cache_get.
  cbn [cache logged]. rewrite Hcached.
  change (default VUndefined (Some t)) with t.
  rewrite Ht, Hlocal. cbn [negb andb].
  unfold returnResult. rewrite run_bind_log.
  eexists. split.
  - rewrite run_bind_await.
    destruct (client_renderTemplate w t (VObj []) _); stopped.
  - intros err html Hrender. rewrite Hrender, run_bind_await_calls.
    unfold rendered_body. rewrite Hlocal. reflexivity.
Qed.

Lemma without_data_provider_recompiled context' t :
  strict_eq_str (headers_accept req) prerendered = false ->
  conf_local (res_conf res) = true \/
  truthy (default VUndefined
            (cache s !! ("file-contents", artifact_key c "template.js")))
  = false ->
  vm_runInNewContext w text template_context = VmDone context' ->
  context_oc_components context' key = Value t ->
  exists options,
    trace (run (component w req res) s).2
    = trace s ++ [RepoGetComponent (params_componentName req) requested;
                  CacheGet "file-contents" (artifact_key c "template.js");
                  RepoGetCompiledView (component_name c) (component_version c);
                  VmRunInNewContext text template_context;
                  CacheSet "file-contents" (artifact_key c "template.js") t;
                  ClientRenderTemplate t (VObj []) options] /\
    forall err html,
      client_renderTemplate w t (VObj []) options = Calls err html ->
      (run (component w req res) s).1
      = Responded 200 (rendered_body w res c requested params html).
Proof.
  intros Hrendered Hmiss Hvm Htemplate.
  assert (Hbranch :
    truthy (default VUndefined
              (cache s !! ("file-contents", artifact_key c "template.js")))
    && negb (conf_local (res_conf res)) = false).
  { destruct Hmiss as [-> | ->]; [apply andb_false_r | done]. }
  rewrite component_without_data_provider.
  unfold got, params, requested, looked_up, rc, key, text in *.
  unfold run, returnComponent. cbn [truthy]. rewrite Hrendered.
  cbv beta zeta. rewrite format_template_key, run_bind_cache_get.
  cbn [cache logged]. rewrite Hbranch.
  rewrite run_bind_log, run_bind_runInNewContext, Hvm, Htemplate.
  rewrite run_bind_lift_value, run_bind_cache_set.
  unfold returnResult. rewrite run_bind_log.
  eexists. split.
  - rewrite run_bind_await.
    destruct (client_renderTemplate w t (VObj []) _); stopped.
  - intros err html Hrender. rewrite Hrender, run_bind_await_calls.
    reflexivity.
Qed.

End NoDataProvider.

(** C7. A component whose metadata declares no data-provider is rendered
    with the empty object as data.  The data path of the sandbox (fetch,
    compilation and invocation of a data-provider) is never entered, and
    the render goes on: once the component is resolved and its parameters
    are valid, the handler is [returnComponent(null, {})].  A pre-rendered
    request is answered 200 with [data = {}] after the lookup alone; a
    rendered request hands [{}] to the render function, with the cached
    view or with the view it has just compiled, and answers 200 with the
    html that the render function calls back with. *)
Theorem no_data_provider_renders_with_empty_data
    (w : World) (req : Req) (res : Res) (s : St) (c : Component) :
  let requested := js_or (params_componentVersion req) (VStr "") in
  let got := repository_getComponent w (params_componentName req) requested in
  let params := sanitiser_sanitiseComponentParameters w (req_query req)
                  (oc_parameters (component_oc c)) in
  let looked_up :=
    logged (RepoGetComponent (params_componentName req) requested) s in
  let template_js := ("file-contents", artifact_key c "template.js") in
  let key := template_hashKey (files_template (oc_files (component_oc c))) in
  let text :=
    cb_arg (repository_getCompiledView w (component_name c)
              (component_version c)) in
  cb_arg got = Some c ->
  truthy (files_dataProvider (oc_files (component_oc c))) = false ->
  (exists evs,
      trace (run (component w req res) s).2 = trace s ++ evs /\
      Forall (fun e => data_path_event e = false) evs /\
      Forall (renders_with (VObj [])) evs /\
      responds_with_data req (VObj []) (run (component w req res) s).1) /\
  (truthy (cb_err got) = false ->
   isValid (validator_validateComponentParameters w params
              (oc_parameters (component_oc c))) = true ->
   run (component w req res) s
   = run (returnComponent w req res c
            {| rc_name := params_componentName req;
               rc_version := requested;
               rc_parameters := req_query req |}
            params VNull (VObj [])) looked_up /\
   (headers_accept req = VStr prerendered ->
    run (component w req res) s
    = (Responded 200 (prerendered_body w res c requested params (VObj [])),
       looked_up)) /\
   (strict_eq_str (headers_accept req) prerendered = false ->
    (forall t,
        conf_local (res_conf res) = false ->
        cache s !! template_js = Some t ->
        truthy t = true ->
        exists options,
          trace (run (component w req res) s).2
          = trace s ++ [RepoGetComponent (params_componentName req) requested;
                        CacheGet template_js.1 template_js.2;
                        ClientRenderTemplate t (VObj []) options] /\
          forall err html,
            client_renderTemplate w t (VObj []) options = Calls err html ->
            (run (component w req res) s).1
            = Responded 200 (rendered_body w res c requested params html)) /\
    (conf_local (res_conf res) = true \/
     truthy (default VUndefined (cache s !! template_js)) = false ->
     forall context' t,
       vm_runInNewContext w text template_context = VmDone context' ->
       context_oc_components context' key = Value t ->
       exists options,
         trace (run (component w req res) s).2
         = trace s ++ [RepoGetComponent (params_componentName req) requested;
                       CacheGet template_js.1 template_js.2;
                       RepoGetCompiledView (component_name c)
                         (component_version c);
                       VmRunInNewContext text template_context;
                       CacheSet template_js.1 template_js.2 t;
                       ClientRenderTemplate t (VObj []) options] /\
         forall err html,
           client_renderTemplate w t (VObj []) options = Calls err html ->
           (run (component w req res) s).1
           = Responded 200 (rendered_body w res c requested params html)))).
Proof.
  intros requested got params looked_up template_js key text Hgot Hnone.
  split.
  - destruct (sat_run _ _ (component w req res) s
                (component_empty_data w req res c Hgot Hnone))
      as (HQ & evs & Ht & _ & HP).
    exists evs. apply Forall_and in HP as [HP1 HP2]. auto.
  - intros Hfound Hvalid.
    split; [by apply component_without_data_provider |].
    split; [by apply without_data_provider_prerendered |].
    intros Hrendered. split.
    + intros t. by apply without_data_provider_hit.
    + intros Hmiss context' t. by apply without_data_provider_recompiled.
Qed.

Lemma no_data_provider_renders_with_empty_data_witness :
  run (component Sample.world
         (Sample.render_req "banner" VUndefined (VStr prerendered))
         Sample.res) (init_state ∅)
  = (Responded 200
       (prerendered_body Sample.world Sample.res Sample.banner (VStr "")
          (VObj []) (VObj [])),
     logged (RepoGetComponent (VStr "banner") (VStr "")) (init_state ∅)) /\
  exists options,
    trace (run (component Sample.world
                  (Sample.render_req "banner" VUndefined VUndefined)
                  Sample.res) (init_state ∅)).2
    = [] ++ [RepoGetComponent (VStr "banner") (VStr "");
             CacheGet "file-contents" "banner/1.0.0/template.js";
             RepoGetCompiledView "banner" "1.0.0";
             VmRunInNewContext (VStr "oc.components['k-banner'] = view;")
               template_context;
             CacheSet "file-contents" "banner/1.0.0/template.js" (VFun 2);
             ClientRenderTemplate (VFun 2) (VObj []) options] /\
    forall err html,
      client_renderTemplate Sample.world (VFun 2) (VObj []) options
      = Calls err html ->
      (run (component Sample.world
              (Sample.render_req "banner" VUndefined VUndefined)
              Sample.res) (init_state ∅)).1
      = Responded 200
          (rendered_body Sample.world Sample.res Sample.banner (VStr "")
             (VObj []) html).
Proof.
  split.
  - apply (proj1 (proj2 (proj2
      (no_data_provider_renders_with_empty_data Sample.world
         (Sample.render_req "banner" VUndefined (VStr prerendered))
         Sample.res (init_state ∅) Sample.banner eq_refl eq_refl)
      eq_refl eq_refl))).
    reflexivity.
  - assert (Hmiss :
      conf_local (res_conf Sample.res) = true \/
      truthy (default VUndefined
                (cache (init_state ∅)
                   !! ("file-contents",
                       artifact_key Sample.banner "template.js"))) = false)
      by (right; reflexivity).
    apply (proj2 (proj2 (proj2 (proj2
      (no_data_provider_renders_with_empty_data Sample.world
         (Sample.render_req "banner" VUndefined VUndefined)
         Sample.res (init_state ∅) Sample.banner eq_refl eq_refl)
      eq_refl eq_refl)) eq_refl) Hmiss
      (obj_set "oc" (VObj [("components", VObj [("k-banner", VFun 2)])])
         template_context) (VFun 2)).
    + reflexivity.
    + reflexivity.
Defined.

(** ** The pre-rendered mode and the data-provider *)

Section PrerenderedData.
Variables (w : World) (req : Req) (res : Res) (c : Component) (s : St).

Let requested : JsVal := js_or (params_componentVersion req) (VStr "").
Let params : JsVal :=
  sanitiser_sanitiseComponentParameters w (req_query req)
    (oc_parameters (component_oc c)).

Hypothesis Haccept : headers_accept req = VStr prerendered.
Hypothesis Hgot :
  cb_arg (repository_getComponent w (params_componentName req) requested)
  = Some c.



End PrerenderedData.

(** ** Failures of the template path in rendered mode *)

Lemma returnComponent_never_502 w req res c rc ps err data :
  truthy err = false ->
  sat (fun _ => True) (fun o => forall body, o <> Responded 502 body)
      (fun _ => True)
      (returnComponent w req res c rc ps err data).
Proof.
  intros Herr. unfold returnComponent. rewrite Herr.
  sat_steps; done.
Qed.

(** C3 (the code departs from the claim).  A failure to fetch or to
    execute the compiled view is not answered with 502.  The error that
    [repository.getCompiledView] hands to its callback is not looked at:
    for [noview], whose view cannot be fetched, the handler goes on to
    execute [undefined] and reads [oc.components] off a context that has
    no [oc], and the [TypeError] leaves the handler.  The error that
    [client.renderTemplate] hands to its callback is not looked at
    either: for [badview] the answer is 200 with an undefined [html].  In
    general, once the data is resolved no answer of the rendered mode is a
    502. *)
Theorem view_failure_is_not_answered_502 :
  (run (component Sample.world
          (Sample.render_req "noview" VUndefined VUndefined) Sample.res)
       (init_state ∅)).1 = Uncaught TypeError /\
  (run (component Sample.world
          (Sample.render_req "badview" VUndefined VUndefined) Sample.res)
       (init_state ∅)).1
  = Responded 200
      (VObj [("href", VStr "http://registry.example.org/badview/");
             ("type", VStr "oc-component");
             ("version", VStr "1.0.0");
             ("requestVersion", VStr "");
             ("html", VUndefined);
             ("renderMode", VStr "rendered")]) /\
  (forall w req res c rc ps err data s body,
      truthy err = false ->
      (run (returnComponent w req res c rc ps err data) s).1
      <> Responded 502 body).
Proof.
  split; [by vm_compute |]. split; [by vm_compute |].
  intros w req res c rc ps err data s body Herr.
  apply (sat_run _ _ (returnComponent w req res c rc ps err data) s
           (returnComponent_never_502 w req res c rc ps err data Herr)).
Qed.

(** ** Claims that the code does not follow as they are stated *)





Lemma component_not_found w req res s :
  truthy (cb_err (repository_getComponent w (params_componentName req)
                    (js_or (params_componentVersion req) (VStr "")))) = true ->
  (run (component w req res) s).1
  = Responded 404
      (VObj [("err",
              cb_err (repository_getComponent w (params_componentName req)
                        (js_or (params_componentVersion req) (VStr ""))))]).
Proof.
  intros Herr. unfold run, component. cbv beta zeta.
  cbn [rc_name rc_version rc_parameters].
  rewrite run_bind_log, Herr. reflexivity.
Qed.



(** * Further properties of the routes *)

(** The component held by the handler after the lookup, given what the
    repository answered. *)
Ltac resolve_with Hgot :=
  match goal with
  | H : match cb_arg _ with Some _ => _ | None => _ end = Value _ |- _ =>
      cbn [rc_name rc_version rc_parameters] in H; rewrite Hgot in H;
      injection H as <-
  end.

Ltac sat_to_resolved Hgot :=
  cbv beta zeta;
  sat_step;
  [| sat_step; [sat_steps | sat_step; [resolve_with Hgot |]]].

(** ** Statuses and shape of the render responses *)

Lemma returnComponent_statuses w req res c rc ps err data :
  sat (fun _ => True) render_status (fun _ => True)
      (returnComponent w req res c rc ps err data).
Proof.
  unfold returnComponent. sat_steps; simpl; auto.
Qed.

Lemma component_statuses w req res :
  sat (fun _ => True) render_status (fun _ => True) (component w req res).
Proof.
  unfold component.
  sat_steps; try apply returnComponent_statuses; simpl; auto.
Qed.

(** X1. Whatever the collaborators and the sandboxed code do, a response
    of the render handler has status 200, 400, 404 or 502. *)
Theorem render_answers_with_four_statuses
    (w : World) (req : Req) (res : Res) (s : St) :
  render_status (run (component w req res) s).1.
Proof. apply (sat_run _ _ _ s (component_statuses w req res)). Qed.

Lemma returnComponent_negotiated w req res c rc ps err data :
  sat (fun _ => True) (negotiated req) (fun _ => True)
      (returnComponent w req res c rc ps err data).
Proof.
  unfold returnComponent.
  sat_steps; try done; simpl; intros Hstatus; try discriminate Hstatus.
  all: eexists; split; [reflexivity |].
  all: by match goal with H : strict_eq_str _ _ = _ |- _ => rewrite H end.
Qed.

Lemma component_negotiated w req res :
  sat (fun _ => True) (negotiated req) (fun _ => True) (component w req res).
Proof.
  unfold component.
  sat_steps; try apply returnComponent_negotiated; try done;
    simpl; intros Hstatus; discriminate Hstatus.
Qed.

(** X2. Content negotiation of the render handler: a 200 response is
    pre-rendered (fields href, type, version, requestVersion, data,
    template, renderMode = "pre-rendered", and no html) exactly when the
    accept header is the string application/vnd.oc.prerendered+json;
    with any other accept header, or none, it is rendered (href, type,
    version, requestVersion, html, renderMode = "rendered", and neither
    data nor template). *)
Theorem render_mode_follows_accept_header
    (w : World) (req : Req) (res : Res) (s : St) :
  negotiated req (run (component w req res) s).1.
Proof. apply (sat_run _ _ _ s (component_negotiated w req res)). Qed.

(** ** The cache entries a render request may change *)

Lemma fold_apply_event_kept (evs : list Event)
    (m : gmap (string * string) JsVal) (key : string * string) :
  is_Some (m !! key) -> is_Some (fold_left apply_event evs m !! key).
Proof.
  revert m. induction evs as [| e evs IH]; intros m Hm; [done |].
  simpl. apply IH. destruct e; simpl; try done.
  by apply cache_store_kept.
Qed.

Lemma fold_apply_event_writes_only (c : Component) (evs : list Event)
    (m : gmap (string * string) JsVal) (key : string * string) :
  Forall (writes_only c) evs ->
  key <> ("file-contents", artifact_key c "server.js") ->
  key <> ("file-contents", artifact_key c "template.js") ->
  key <> ("__notype__", "file-contents") ->
  fold_left apply_event evs m !! key = m !! key.
Proof.
  intros Hall Hs Ht Hd. revert m.
  induction Hall as [| e evs He Hall IH]; intros m; [done |].
  simpl. rewrite IH. destruct e; simpl in *; try done.
  destruct He as [-> Hk].
  apply cache_store_other; [destruct Hk as [-> | ->]; congruence | done].
Qed.

Lemma fold_apply_event_default_type (c : Component) (evs : list Event)
    (m : gmap (string * string) JsVal) :
  Forall (writes_only c) evs ->
  fold_left apply_event evs m !! ("__notype__", "file-contents")
  = m !! ("__notype__", "file-contents") \/
  fold_left apply_event evs m !! ("__notype__", "file-contents")
  = Some (VStr (artifact_key c "server.js")) \/
  fold_left apply_event evs m !! ("__notype__", "file-contents")
  = Some (VStr (artifact_key c "template.js")).
Proof.
  intros Hall. revert m.
  induction Hall as [| e evs He Hall IH]; intros m; [by left |].
  simpl. destruct (IH (apply_event m e)) as [-> | Hset]; [| by right].
  destruct e; simpl in *; try (by left).
  destruct He as [-> Hk]. unfold cache_store.
  destruct (truthy data).
  - left. by apply lookup_insert_ne.
  - right. rewrite lookup_insert_eq. destruct Hk as [-> | ->]; auto.
Qed.

Lemma fold_apply_event_no_write (evs : list Event)
    (m : gmap (string * string) JsVal) :
  Forall no_write evs -> fold_left apply_event evs m = m.
Proof.
  intros Hall. revert m.
  induction Hall as [| e evs He Hall IH]; intros m; [done |].
  simpl. rewrite IH. by destruct e.
Qed.

Lemma returnComponent_writes_only w req res c rc ps err data :
  sat (writes_only c) (fun _ => True) (fun _ => True)
      (returnComponent w req res c rc ps err data).
Proof.
  unfold returnComponent. rewrite format_template_key.
  sat_steps; try done. simpl. auto.
Qed.

Lemma component_writes_only w req res c :
  cb_arg (repository_getComponent w (params_componentName req)
            (js_or (params_componentVersion req) (VStr ""))) = Some c ->
  sat (writes_only c) (fun _ => True) (fun _ => True) (component w req res).
Proof.
  intros Hgot. unfold component.
  sat_to_resolved Hgot; try done.
  rewrite format_server_key.
  sat_steps; try done; try apply returnComponent_writes_only; simpl; auto.
Qed.

(** X3. The cache entries that a render request may change.  A request
    that resolves to a component calls [cache.set] for the two artifacts
    of that component only (name/version/server.js and
    name/version/template.js under file-contents).  So the only entries
    that can change are these two and, because [cache.set] given a falsy
    artifact stores the key under the default type instead, the entry
    file-contents of the default type, which then holds one of the two
    keys.  Every other entry stays as it is (the artifacts cached for the
    other components, and for the other versions), and no entry is
    removed. *)
Theorem render_changes_only_its_own_artifacts
    (w : World) (req : Req) (res : Res) (s : St) (c : Component)
    (key : string * string) :
  cb_arg (repository_getComponent w (params_componentName req)
            (js_or (params_componentVersion req) (VStr ""))) = Some c ->
  (key <> ("file-contents", artifact_key c "server.js") ->
   key <> ("file-contents", artifact_key c "template.js") ->
   key <> ("__notype__", "file-contents") ->
   cache (run (component w req res) s).2 !! key = cache s !! key) /\
  (cache (run (component w req res) s).2 !! ("__notype__", "file-contents")
   = cache s !! ("__notype__", "file-contents") \/
   cache (run (component w req res) s).2 !! ("__notype__", "file-contents")
   = Some (VStr (artifact_key c "server.js")) \/
   cache (run (component w req res) s).2 !! ("__notype__", "file-contents")
   = Some (VStr (artifact_key c "template.js"))) /\
  (is_Some (cache s !! key) ->
   is_Some (cache (run (component w req res) s).2 !! key)) /\
  exists evs,
    trace (run (component w req res) s).2 = trace s ++ evs /\
    Forall (writes_only c) evs.
Proof.
  intros Hgot.
  destruct (sat_run _ _ (component w req res) s
              (component_writes_only w req res c Hgot))
    as (_ & evs & Ht & Hc & HP).
  rewrite Hc. split; [| split; [| split]].
  - intros Hs Hv Hd. by apply (fold_apply_event_writes_only c).
  - by apply fold_apply_event_default_type.
  - apply fold_apply_event_kept.
  - eauto.
Qed.

Lemma render_changes_only_its_own_artifacts_witness :
  cache (run (component Sample.world
                (Sample.render_req "greeter" (VStr "2.0.0") VUndefined)
                Sample.res)
           (init_state {[ ("file-contents", "banner/1.0.0/template.js")
                          := VFun 2 ]})).2
    !! ("file-contents", "banner/1.0.0/template.js")
  = (init_state {[ ("file-contents", "banner/1.0.0/template.js")
                   := VFun 2 ]}).(cache)
    !! ("file-contents", "banner/1.0.0/template.js").
Proof.
  apply (render_changes_only_its_own_artifacts Sample.world
           (Sample.render_req "greeter" (VStr "2.0.0") VUndefined)
           Sample.res
           (init_state {[ ("file-contents", "banner/1.0.0/template.js")
                          := VFun 2 ]})
           Sample.greeter
           ("file-contents", "banner/1.0.0/template.js")).
  - reflexivity.
  - vm_compute. discriminate.
  - vm_compute. discriminate.
  - discriminate.
Defined.

(** ** Requests that end at the lookup or at the validation *)

(** X4. A render request that the repository does not resolve, or whose
    parameters are not valid, goes no further than the lookup: the only
    call made is [repository.getComponent], the cache is left as it is,
    and the reason is kept in [res.errorDetails].  An unknown component
    is answered 404 with the repository's error, invalid parameters 400
    with the validator's message; a lookup that reports no error and
    hands over no component ends with a [TypeError]. *)
Theorem rejected_request_stops_at_lookup
    (w : World) (req : Req) (res : Res) (s : St) :
  let requested := js_or (params_componentVersion req) (VStr "") in
  let got := repository_getComponent w (params_componentName req) requested in
  let looked_up := logged (RepoGetComponent (params_componentName req) requested) s in
  (truthy (cb_err got) = true ->
   run (component w req res) s
   = (Responded 404 (VObj [("err", cb_err got)]),
      {| cache := cache s; trace := trace looked_up;
         errorDetails := cb_err got |})) /\
  (truthy (cb_err got) = false -> cb_arg got = None ->
   run (component w req res) s = (Uncaught TypeError, looked_up)) /\
  (forall c,
      truthy (cb_err got) = false -> cb_arg got = Some c ->
      let result :=
        validator_validateComponentParameters w
          (sanitiser_sanitiseComponentParameters w (req_query req)
             (oc_parameters (component_oc c)))
          (oc_parameters (component_oc c)) in
      isValid result = false ->
      run (component w req res) s
      = (Responded 400 (VObj [("error", errors_message result)]),
         {| cache := cache s; trace := trace looked_up;
            errorDetails := errors_message result |})).
Proof.
  intros requested got looked_up. subst requested got looked_up.
  repeat split.
  - intros Herr. unfold run, component. cbv beta zeta.
    cbn [rc_name rc_version rc_parameters].
    rewrite run_bind_log, Herr. reflexivity.
  - intros Herr Hnone. unfold run, component. cbv beta zeta.
    cbn [rc_name rc_version rc_parameters].
    rewrite run_bind_log, Herr, Hnone. reflexivity.
  - intros c Herr Hgot result Hinvalid. subst result.
    unfold run, component. cbv beta zeta.
    cbn [rc_name rc_version rc_parameters].
    rewrite run_bind_log, Herr, Hgot, run_bind_lift_value, Hinvalid.
    reflexivity.
Qed.

Lemma rejected_request_stops_at_lookup_witness :
  run (component Sample.world
         (Sample.render_req "unknown" VUndefined VUndefined) Sample.res)
      (init_state ∅)
  = (Responded 404 (VObj [("err", VStr "Component not found")]),
     {| cache := ∅;
        trace := [RepoGetComponent (VStr "unknown") (VStr "")];
        errorDetails := VStr "Component not found" |}).
Proof.
  apply (proj1 (rejected_request_stops_at_lookup Sample.world
                  (Sample.render_req "unknown" VUndefined VUndefined)
                  Sample.res (init_state ∅))).
  reflexivity.
Defined.

(** ** What a successful response leaves in the cache *)

Lemma cached_function (m : gmap (string * string) JsVal)
    (key : string * string) id :
  default VUndefined (m !! key) = VFun id -> m !! key = Some (VFun id).
Proof. destruct (m !! key); simpl; [by intros -> | discriminate]. Qed.

Lemma server_key_kept (m : gmap (string * string) JsVal) c t :
  cache_store "file-contents" (artifact_key c "template.js") t m
    !! ("file-contents", artifact_key c "server.js")
  = m !! ("file-contents", artifact_key c "server.js").
Proof.
  apply cache_store_other; [| discriminate].
  intros [= Hk]. symmetry in Hk. by apply artifact_key_kinds in Hk.
Qed.

Lemma server_key_set (m : gmap (string * string) JsVal) c id :
  cache_store "file-contents" (artifact_key c "server.js") (VFun id) m
    !! ("file-contents", artifact_key c "server.js")
  = Some (VFun id).
Proof. apply lookup_insert_eq. Qed.

Lemma success_caches_function
    (w : World) (req : Req) (res : Res) (s : St) (c : Component)
    (body : JsVal) :
  cb_arg (repository_getComponent w (params_componentName req)
            (js_or (params_componentVersion req) (VStr ""))) = Some c ->
  truthy (files_dataProvider (oc_files (component_oc c))) = true ->
  (run (component w req res) s).1 = Responded 200 body ->
  exists id,
    cache (run (component w req res) s).2
      !! ("file-contents", artifact_key c "server.js") = Some (VFun id).
Proof.
  intros Hgot Hprovider. unfold run.
  destruct (finish (component w req res s)) as [o s'] eqn:H.
  cbn [fst snd]. intros ->.
  unfold component in H. cbv beta zeta in H.
  cbn [rc_name rc_version rc_parameters] in H.
  repeat first
    [ progress rewrite ?Hgot, ?Hprovider, ?format_server_key,
        ?format_template_key in H
    | progress cbn [negb] in H
    | progress unfold returnComponent in H
    | run_cases H ].
  all: unfold res_json, throw, pending in H; cbn [finish] in H.
  all: try discriminate H.
  all: inversion H; subst; clear H.
  all: cbn [cache logged] in *.
  all: rewrite ?server_key_kept, ?server_key_set.
  all: eauto using cached_function.
Qed.

(** X5. When the render handler answers 200 for a component that declares
    a data-provider, the cache holds a function under the component's
    name/version/server.js key afterwards, in production and in
    development mode, in rendered and in pre-rendered mode. *)
Theorem success_leaves_data_provider_cached
    (w : World) (req : Req) (res : Res) (s : St) (c : Component)
    (body : JsVal) :
  cb_arg (repository_getComponent w (params_componentName req)
            (js_or (params_componentVersion req) (VStr ""))) = Some c ->
  truthy (files_dataProvider (oc_files (component_oc c))) = true ->
  (run (component w req res) s).1 = Responded 200 body ->
  exists id,
    cache (run (component w req res) s).2
      !! ("file-contents", artifact_key c "server.js") = Some (VFun id).
Proof. apply success_caches_function. Qed.

Lemma success_leaves_data_provider_cached_witness :
  exists id,
    cache (run (component Sample.world
                  (Sample.render_req "greeter" VUndefined VUndefined)
                  Sample.res) (init_state ∅)).2
      !! ("file-contents", artifact_key Sample.greeter "server.js")
    = Some (VFun id).
Proof.
  apply (success_leaves_data_provider_cached Sample.world
           (Sample.render_req "greeter" VUndefined VUndefined)
           Sample.res (init_state ∅) Sample.greeter
           (VObj [("href", VStr "http://registry.example.org/greeter/");
                  ("type", VStr "oc-component");
                  ("version", VStr "2.0.0");
                  ("requestVersion", VStr "");
                  ("html", VStr "<div>banner</div>");
                  ("renderMode", VStr "rendered")]));
    reflexivity.
Defined.

(** ** The data-provider and the view at work *)

(** Through the lookup and the validation, up to the cache lookup of the
    data-provider. *)
Ltac enter_data_phase Hfound Hgot Hvalid Hprovider :=
  unfold run, component; cbv beta zeta;
  cbn [rc_name rc_version rc_parameters];
  rewrite run_bind_log;
  rewrite Hfound, Hgot, run_bind_lift_value;
  rewrite Hvalid, Hprovider; cbn [negb];
  rewrite format_server_key, run_bind_cache_get;
  cbn [cache logged].

(** X6. A warm request.  In production mode, for a component whose two
    artifacts are in the cache (the data-provider as a function, the view
    as any truthy value) and whose data-provider calls back without
    error, a rendered request makes exactly five calls: the lookup of the
    component, the two cache reads, the data-provider and the render
    function.  Nothing is fetched from the repository, nothing is
    executed in the vm, the cache is left as it is, and the answer is 200
    with the html handed over by the render function (whatever error the
    render function reports with it). *)
Theorem warm_request_makes_five_calls
    (w : World) (req : Req) (res : Res) (s : St) (c : Component)
    (id : nat) (t err data : JsVal) :
  let requested := js_or (params_componentVersion req) (VStr "") in
  let got := repository_getComponent w (params_componentName req) requested in
  let params := sanitiser_sanitiseComponentParameters w (req_query req)
                  (oc_parameters (component_oc c)) in
  let context := reqObj w req (res_conf res) c params in
  truthy (cb_err got) = false ->
  cb_arg got = Some c ->
  isValid (validator_validateComponentParameters w params
             (oc_parameters (component_oc c))) = true ->
  truthy (files_dataProvider (oc_files (component_oc c))) = true ->
  conf_local (res_conf res) = false ->
  strict_eq_str (headers_accept req) prerendered = false ->
  cache s !! ("file-contents", artifact_key c "server.js") = Some (VFun id) ->
  call_function w id context = Calls err data ->
  truthy err = false ->
  cache s !! ("file-contents", artifact_key c "template.js") = Some t ->
  truthy t = true ->
  exists options,
    trace (run (component w req res) s).2
    = trace s ++ [RepoGetComponent (params_componentName req) requested;
                  CacheGet "file-contents" (artifact_key c "server.js");
                  CallFunction (VFun id) context;
                  CacheGet "file-contents" (artifact_key c "template.js");
                  ClientRenderTemplate t data options] /\
    cache (run (component w req res) s).2 = cache s /\
    (run (component w req res) s).1
    = match client_renderTemplate w t data options with
      | Calls _ html =>
          Responded 200 (rendered_body w res c requested params html)
      | ThrowsSync e => Uncaught e
      | Silent => NoResponse
      end.
Proof.
  intros requested got params context Hfound Hgot Hvalid Hprovider Hlocal
    Hrendered Hdata Hcall Herr Hview Ht.
  subst requested got params context.
  enter_data_phase Hfound Hgot Hvalid Hprovider.
  rewrite Hdata. change (default VUndefined (Some (VFun id))) with (VFun id).
  rewrite Hlocal. cbn [truthy negb andb].
  rewrite run_bind_call. cbn [applied]. rewrite Hcall, run_bind_await.
  unfold returnComponent. cbn [cb_err cb_arg]. rewrite Herr, Hrendered.
  cbv beta zeta. rewrite format_template_key, run_bind_cache_get.
  cbn [cache logged]. rewrite Hview.
  change (default VUndefined (Some t)) with t.
  rewrite Ht, Hlocal. cbn [negb andb].
  unfold returnResult. rewrite run_bind_log, run_bind_await.
  eexists.
  destruct (client_renderTemplate w t data _) eqn:Hrender;
    (split; [stopped | split; [stopped |]]);
    rewrite Hrender; unfold rendered_body; rewrite ?Hlocal; stopped.
Qed.

Lemma warm_request_makes_five_calls_witness :
  exists options,
    trace (run (component Sample.world
                  (Sample.render_req "greeter" VUndefined VUndefined)
                  Sample.res)
             (init_state
                (<[("file-contents", "greeter/2.0.0/template.js") := VFun 2]>
                   {[ ("file-contents", "greeter/2.0.0/server.js")
                      := VFun 1 ]}))).2
    = [RepoGetComponent (VStr "greeter") (VStr "");
       CacheGet "file-contents" "greeter/2.0.0/server.js";
       CallFunction (VFun 1)
         (reqObj Sample.world
            (Sample.render_req "greeter" VUndefined VUndefined)
            (res_conf Sample.res) Sample.greeter (VObj []));
       CacheGet "file-contents" "greeter/2.0.0/template.js";
       ClientRenderTemplate (VFun 2) (VObj [("greeting", VStr "Hello")])
         options].
Proof.
  destruct (warm_request_makes_five_calls Sample.world
              (Sample.render_req "greeter" VUndefined VUndefined)
              Sample.res
              (init_state
                 (<[("file-contents", "greeter/2.0.0/template.js") := VFun 2]>
                    {[ ("file-contents", "greeter/2.0.0/server.js")
                       := VFun 1 ]}))
              Sample.greeter 1 (VFun 2) VNull
              (VObj [("greeting", VStr "Hello")]))
    as (options & Htrace & _); try reflexivity.
  exists options. exact Htrace.
Defined.

(** X7. A data-provider source that leaves nothing callable in
    [module.exports.data].  When the source is compiled (on a miss, or in
    development mode) and what is found under [data] cannot be called,
    that value is handed to [cache.set] all the same and the call of it
    ends the request with a [TypeError]; no response is written.  A
    truthy value (an object, a string, a number) is then in the cache under
    the key of the data-provider; for a falsy one (such as [undefined],
    when the source exports nothing) nothing is stored under that key and
    the key itself is stored under file-contents of the default type. *)
Theorem data_provider_without_data_function
    (w : World) (req : Req) (res : Res) (s : St) (c : Component)
    (context' : Obj) (export : JsVal) :
  let requested := js_or (params_componentVersion req) (VStr "") in
  let got := repository_getComponent w (params_componentName req) requested in
  let params := sanitiser_sanitiseComponentParameters w (req_query req)
                  (oc_parameters (component_oc c)) in
  let fetched :=
    repository_getDataProvider w (component_name c) (component_version c) in
  truthy (cb_err got) = false ->
  cb_arg got = Some c ->
  isValid (validator_validateComponentParameters w params
             (oc_parameters (component_oc c))) = true ->
  truthy (files_dataProvider (oc_files (component_oc c))) = true ->
  conf_local (res_conf res) = true \/
  truthy (default VUndefined
            (cache s !! ("file-contents", artifact_key c "server.js")))
  = false ->
  truthy (cb_err fetched) = false ->
  vm_runInNewContext w (cb_arg fetched) (dataProvider_context res)
  = VmDone context' ->
  context_module_exports_data context' = Value export ->
  callable export = false ->
  (run (component w req res) s).1 = Uncaught TypeError /\
  trace (run (component w req res) s).2
  = trace s ++ [RepoGetComponent (params_componentName req) requested;
                CacheGet "file-contents" (artifact_key c "server.js");
                RepoGetDataProvider (component_name c) (component_version c);
                VmRunInNewContext (cb_arg fetched) (dataProvider_context res);
                CacheSet "file-contents" (artifact_key c "server.js") export;
                CallFunction export (reqObj w req (res_conf res) c params)] /\
  cache (run (component w req res) s).2
  = if truthy export
    then <[("file-contents", artifact_key c "server.js") := export]> (cache s)
    else <[("__notype__", "file-contents")
           := VStr (artifact_key c "server.js")]> (cache s).
Proof.
  intros requested got params fetched Hfound Hgot Hvalid Hprovider Hmiss
    Hfetched Hvm Hexport Hnot.
  subst requested got params fetched.
  assert (Hbranch :
    truthy (default VUndefined
              (cache s !! ("file-contents", artifact_key c "server.js")))
    && negb (conf_local (res_conf res)) = false).
  { destruct Hmiss as [-> | ->]; [apply andb_false_r | done]. }
  enter_data_phase Hfound Hgot Hvalid Hprovider.
  rewrite Hbranch, run_bind_log, Hfetched, run_bind_runInNewContext, Hvm.
  rewrite Hexport, run_bind_lift_value, run_bind_cache_set, run_bind_call.
  rewrite (applied_not_callable w export _ Hnot), run_bind_await_throws.
  repeat split; stopped.
Qed.

Lemma data_provider_without_data_function_witness :
  (run (component SampleProviders.world
          (Sample.render_req "plain" VUndefined VUndefined)
          Sample.res) (init_state ∅)).1 = Uncaught TypeError /\
  cache (run (component SampleProviders.world
                (Sample.render_req "plain" VUndefined VUndefined)
                Sample.res) (init_state ∅)).2
  = {[ ("__notype__", "file-contents") := VStr "plain/1.0.0/server.js" ]}.
Proof.
  assert (Hmiss :
    conf_local (res_conf Sample.res) = true \/
    truthy (default VUndefined
              (cache (init_state ∅)
                 !! ("file-contents",
                     artifact_key SampleProviders.plain "server.js")))
    = false) by (right; reflexivity).
  destruct (data_provider_without_data_function SampleProviders.world
              (Sample.render_req "plain" VUndefined VUndefined)
              Sample.res (init_state ∅) SampleProviders.plain
              (dataProvider_context Sample.res) VUndefined
              eq_refl eq_refl eq_refl eq_refl Hmiss eq_refl)
    as (Houtcome & _ & Hcache); try reflexivity.
  split; [exact Houtcome | exact Hcache].
Defined.

(** X8. Nothing bounds the call of a data-provider.  When the
    data-provider function never invokes its callback, the request is
    left without a response, whether the function came out of the cache
    or was just compiled. *)
Theorem silent_data_provider_leaves_request_unanswered
    (w : World) (req : Req) (res : Res) (s : St) (c : Component) (id : nat) :
  let requested := js_or (params_componentVersion req) (VStr "") in
  let got := repository_getComponent w (params_componentName req) requested in
  let params := sanitiser_sanitiseComponentParameters w (req_query req)
                  (oc_parameters (component_oc c)) in
  let fetched :=
    repository_getDataProvider w (component_name c) (component_version c) in
  truthy (cb_err got) = false ->
  cb_arg got = Some c ->
  isValid (validator_validateComponentParameters w params
             (oc_parameters (component_oc c))) = true ->
  truthy (files_dataProvider (oc_files (component_oc c))) = true ->
  call_function w id (reqObj w req (res_conf res) c params) = Silent ->
  (conf_local (res_conf res) = false ->
   cache s !! ("file-contents", artifact_key c "server.js") = Some (VFun id) ->
   (run (component w req res) s).1 = NoResponse) /\
  (conf_local (res_conf res) = true \/
   truthy (default VUndefined
             (cache s !! ("file-contents", artifact_key c "server.js")))
   = false ->
   truthy (cb_err fetched) = false ->
   forall context',
     vm_runInNewContext w (cb_arg fetched) (dataProvider_context res)
     = VmDone context' ->
     context_module_exports_data context' = Value (VFun id) ->
     (run (component w req res) s).1 = NoResponse).
Proof.
  intros requested got params fetched Hfound Hgot Hvalid Hprovider Hsilent.
  subst requested got params fetched.
  split.
  - intros Hlocal Hcached.
    enter_data_phase Hfound Hgot Hvalid Hprovider.
    rewrite Hcached.
    change (default VUndefined (Some (VFun id))) with (VFun id).
    rewrite Hlocal. cbn [truthy negb andb].
    rewrite run_bind_call. cbn [applied]. rewrite Hsilent. reflexivity.
  - intros Hmiss Hfetched context' Hvm Hexport.
    assert (Hbranch :
      truthy (default VUndefined
                (cache s !! ("file-contents", artifact_key c "server.js")))
      && negb (conf_local (res_conf res)) = false).
    { destruct Hmiss as [-> | ->]; [apply andb_false_r | done]. }
    enter_data_phase Hfound Hgot Hvalid Hprovider.
    rewrite Hbranch, run_bind_log, Hfetched, run_bind_runInNewContext, Hvm.
    rewrite Hexport, run_bind_lift_value, run_bind_cache_set, run_bind_call.
    cbn [applied]. rewrite Hsilent. reflexivity.
Qed.

Lemma silent_data_provider_leaves_request_unanswered_witness :
  (run (component SampleProviders.world
          (Sample.render_req "mute" VUndefined VUndefined)
          Sample.res) (init_state ∅)).1 = NoResponse.
Proof.
  assert (Hmiss :
    conf_local (res_conf Sample.res) = true \/
    truthy (default VUndefined
              (cache (init_state ∅)
                 !! ("file-contents",
                     artifact_key SampleProviders.mute "server.js")))
    = false) by (right; reflexivity).
  apply (proj2 (silent_data_provider_leaves_request_unanswered
                  SampleProviders.world
                  (Sample.render_req "mute" VUndefined VUndefined)
                  Sample.res (init_state ∅) SampleProviders.mute 4
                  eq_refl eq_refl eq_refl eq_refl eq_refl)
           Hmiss eq_refl
           (obj_set "module" (VObj [("exports", VObj [("data", VFun 4)])])
              (dataProvider_context Sample.res))).
  - reflexivity.
  - reflexivity.
Defined.

(** ** The static path handed to a data-provider *)

Lemma replace_first_unfold pat rep s :
  replace_first pat rep s
  = if String.prefix pat s then rep +:+ drop_chars (String.length pat) s
    else match s with
         | EmptyString => EmptyString
         | String ch s' => String ch (replace_first pat rep s')
         end.
Proof. by destruct s. Qed.

Lemma prefix_app pat rest : String.prefix pat (pat +:+ rest) = true.
Proof.
  induction pat as [| ch pat IH]; simpl; [by destruct rest |].
  by destruct (ascii_dec ch ch).
Qed.

Lemma drop_chars_app pat rest :
  drop_chars (String.length pat) (pat +:+ rest) = rest.
Proof. induction pat as [| ch pat IH]; simpl; [by destruct rest | done]. Qed.

Lemma replace_first_at_start pat rep rest :
  replace_first pat rep (pat +:+ rest) = rep +:+ rest.
Proof.
  by rewrite replace_first_unfold, prefix_app, drop_chars_app.
Qed.

Lemma replace_first_absent pat rep s :
  occurs pat s = false -> replace_first pat rep s = s.
Proof.
  induction s as [| ch s IH]; intros Hno.
  - rewrite replace_first_unfold.
    change (occurs pat "") with (String.prefix pat "" || false) in Hno.
    apply orb_false_iff in Hno as [-> _]. done.
  - rewrite replace_first_unfold.
    assert (Hparts : String.prefix pat (String ch s) = false /\
                     occurs pat s = false).
    { change (occurs pat (String ch s))
        with (String.prefix pat (String ch s) || occurs pat s) in Hno.
      by apply orb_false_iff in Hno. }
    destruct Hparts as [-> Hs]. by rewrite IH.
Qed.

(** X9. The request context of a data-provider carries the static path
    of the component without its protocol: when the repository's static
    path begins with [https:], the [staticPath] field is the rest of it
    (a protocol-relative address); a path in which [https:] does not occur
    is handed over unchanged. *)
Theorem data_provider_gets_protocol_relative_static_path
    (w : World) (req : Req) (conf : Conf) (c : Component) (params : JsVal) :
  let path := repository_getStaticFilePath w (component_name c)
                (component_version c) "" in
  (forall rest,
      path = "https:" +:+ rest ->
      get_prop (reqObj w req conf c params) "staticPath" = Value (VStr rest)) /\
  (occurs "https:" path = false ->
   get_prop (reqObj w req conf c params) "staticPath" = Value (VStr path)).
Proof.
  intros path. subst path. split.
  - intros rest Hpath. unfold reqObj. rewrite Hpath.
    rewrite (replace_first_at_start "https:" "" rest). reflexivity.
  - intros Hno. unfold reqObj. rewrite replace_first_absent by done.
    reflexivity.
Qed.

Lemma data_provider_gets_protocol_relative_static_path_witness :
  get_prop (reqObj Sample.world
              (Sample.render_req "greeter" VUndefined VUndefined)
              (res_conf Sample.res) Sample.greeter (VObj [])) "staticPath"
  = Value (VStr "//cdn.example.org/greeter/2.0.0/").
Proof.
  apply (proj1 (data_provider_gets_protocol_relative_static_path Sample.world
                  (Sample.render_req "greeter" VUndefined VUndefined)
                  (res_conf Sample.res) Sample.greeter (VObj []))).
  reflexivity.
Defined.

(** ** The publish handler as a whole *)

(** The runs of the publish handler, one goal for each way it can end. *)
Ltac publish_runs H :=
  unfold publish in H; cbv beta zeta in H;
  repeat run_cases H;
  unfold res_json, throw, pending in H; cbn [finish] in H;
  inversion H; subst; clear H;
  cbn [cache trace errorDetails logged] in *.

(** X10. Whatever the collaborators answer, a response written by the
    publish handler has status 200, 403, 409 or 500. *)
Theorem publish_answers_with_four_statuses
    (w : World) (req : Req) (res : Res) (s : St) :
  publish_status (run (publish w req res) s).1.
Proof.
  unfold run.
  destruct (finish (publish w req res s)) as [o s'] eqn:H.
  cbn [fst].
  publish_runs H; simpl; auto.
Qed.

(** X11. The publish handler never touches the artifact cache (a publish
    invalidates nothing), and it calls its collaborators in one order
    only: nothing at all, or the extraction alone when the extraction
    reports an error, or the extraction followed by a single call of the
    repository's publish operation, with the name and the version of the
    request, when the extraction reports none. *)
Theorem publish_extracts_then_commits
    (w : World) (req : Req) (res : Res) (s : St) :
  cache (run (publish w req res) s).2 = cache s /\
  exists evs,
    trace (run (publish w req res) s).2 = trace s ++ evs /\
    (evs = [] \/
     (exists packagePath packageUntarOutput,
         evs = [TargzExtract packagePath packageUntarOutput] /\
         truthy (targz_extract w packagePath packageUntarOutput) = true) \/
     (exists packagePath packageUntarOutput packageOutput,
         evs = [TargzExtract packagePath packageUntarOutput;
                RepoPublishComponent packageOutput
                  (params_componentName req) (params_componentVersion req)] /\
         truthy (targz_extract w packagePath packageUntarOutput) = false)).
Proof.
  unfold run.
  destruct (finish (publish w req res s)) as [o s'] eqn:H.
  cbn [snd].
  publish_runs H; (split; [reflexivity |]).
  all: try (exists []; rewrite app_nil_r; by auto).
  all: try (eexists; rewrite <- ?app_assoc; split; [reflexivity |];
            right; left; by eauto).
  all: eexists; rewrite <- ?app_assoc; (split; [reflexivity |]);
       right; right; by eauto.
Qed.

(** X12. The publish handler sets [res.errorDetails] on every answer but
    the successful one: with a 200 the field is left as it was, with any
    other status it holds a message. *)
Theorem publish_sets_error_details_on_errors
    (w : World) (req : Req) (res : Res) (s : St) :
  match (run (publish w req res) s).1 with
  | Responded status _ =>
      if (status =? 200)%Z
      then errorDetails (run (publish w req res) s).2 = errorDetails s
      else exists message,
             errorDetails (run (publish w req res) s).2 = VStr message
  | _ => True
  end.
Proof.
  unfold run.
  destruct (finish (publish w req res s)) as [o s'] eqn:H.
  cbn [fst snd].
  publish_runs H; simpl; eauto.
Qed.

(** ** [componentInfo] *)

Lemma obj_get_set_eq k v (fields : Obj) : obj_get k (obj_set k v fields) = v.
Proof.
  induction fields as [| [k' v'] fields IH]; simpl.
  - by rewrite String.eqb_refl.
  - destruct (String.eqb k k') eqn:Hk; simpl.
    + by rewrite String.eqb_refl.
    + by rewrite Hk.
Qed.

Lemma obj_get_set_ne k k' v (fields : Obj) :
  k <> k' -> obj_get k' (obj_set k v fields) = obj_get k' fields.
Proof.
  intros Hne.
  assert (Hkk : String.eqb k' k = false)
    by (apply String.eqb_neq; congruence).
  induction fields as [| [k0 v0] fields IH]; simpl.
  - by rewrite Hkk.
  - destruct (String.eqb k k0) eqn:Hk; simpl.
    + apply String.eqb_eq in Hk as <-. by rewrite Hkk.
    + by rewrite IH.
Qed.

(** X14. [componentInfo] answers a resolved component with the properties
    of the component as the repository hands them over, except
    [requestVersion], which is the requested version string (the empty
    string when the request gave none) even when the stored component has
    a [requestVersion] of its own.  The repository is asked with the
    version parameter as it came (undefined when omitted), and nothing
    else is called. *)
Theorem componentInfo_sets_requestVersion
    (w : World) (component_object : Component -> Obj)
    (extend_undefined : Obj -> Exc JsVal)
    (req : Req) (res : Res) (s : St) (c : Component) :
  let got := repository_getComponent w (params_componentName req)
               (params_componentVersion req) in
  truthy (cb_err got) = false ->
  cb_arg got = Some c ->
  exists fields,
    run (componentInfo w component_object extend_undefined req res) s
    = (Responded 200 (VObj fields),
       logged (RepoGetComponent (params_componentName req)
                 (params_componentVersion req)) s) /\
    obj_get "requestVersion" fields
    = js_or (params_componentVersion req) (VStr "") /\
    (forall k, k <> "requestVersion" ->
               obj_get k fields = obj_get k (component_object c)).
Proof.
  intros got Hfound Hgot. subst got.
  eexists. split; [| split].
  - unfold run, componentInfo. cbv beta zeta.
    rewrite run_bind_log, Hfound, Hgot, run_bind_lift_value. reflexivity.
  - apply obj_get_set_eq.
  - intros k Hk. simpl. apply obj_get_set_ne. congruence.
Qed.

Lemma componentInfo_sets_requestVersion_witness :
  exists fields,
    run (componentInfo Sample.world SampleHost.component_object
           (fun _ => Throws TypeError)
           (Sample.render_req "banner" (VStr "1.0.0") VUndefined) Sample.res)
        (init_state ∅)
    = (Responded 200 (VObj fields),
       logged (RepoGetComponent (VStr "banner") (VStr "1.0.0"))
         (init_state ∅)) /\
    obj_get "requestVersion" fields = VStr "1.0.0" /\
    (forall k, k <> "requestVersion" ->
               obj_get k fields
               = obj_get k (SampleHost.component_object Sample.banner)).
Proof.
  apply (componentInfo_sets_requestVersion Sample.world
           SampleHost.component_object (fun _ => Throws TypeError)
           (Sample.render_req "banner" (VStr "1.0.0") VUndefined) Sample.res
           (init_state ∅) Sample.banner);
    reflexivity.
Defined.

(** ** [staticRedirector] *)

Lemma strict_eq_str_true v lit : strict_eq_str v lit = true -> v = VStr lit.
Proof.
  destruct v; simpl; try discriminate.
  intros Heq. apply String.eqb_eq in Heq. by subst.
Qed.

Lemma serve_checks_the_file w h filePath :
  match serve w h filePath with
  | Pipe served =>
      served = filePath /\ host_existsSync h filePath = true /\
      host_open h filePath = None
  | Json status body details =>
      status = 404%Z /\ host_existsSync h filePath = false /\
      details = VStr ("File " +:+ filePath +:+ " not found") /\
      body = VObj [("err", details)]
  | Redirect _ => False
  | Throw e => host_existsSync h filePath = true /\ host_open h filePath = Some e
  end.
Proof.
  unfold serve. destruct (host_existsSync h filePath); simpl; [| done].
  by destruct (host_open h filePath).
Qed.

(** X15. A static request ends in one of four ways, each under its own
    condition.  A file is piped into the response only if it exists and
    its stream opens; the 404 answer names a path that does not exist
    ("File <path> not found", also kept in [errorDetails]); the redirect is
    the answer to the client route in production mode only, and goes to
    the repository's static client path. *)
Theorem static_request_pipes_existing_files_only
    (w : World) (h : Host) (req : StaticReq) (conf : StaticConf) :
  match staticRedirector w h req conf with
  | Pipe filePath =>
      host_existsSync h filePath = true /\ host_open h filePath = None
  | Json status body details =>
      status = 404%Z /\
      exists filePath,
        host_existsSync h filePath = false /\
        details = VStr ("File " +:+ filePath +:+ " not found") /\
        body = VObj [("err", details)]
  | Redirect url =>
      static_local conf = false /\
      route_path req = VStr (clientPath w conf) /\
      url = host_getStaticClientPath h
  | Throw _ => True
  end.
Proof.
  unfold staticRedirector.
  destruct (strict_eq_str (route_path req) (clientPath w conf)) eqn:Hroute.
  - destruct (static_local conf).
    + destruct (host_path_join h _) as [filePath | e]; [| done].
      pose proof (serve_checks_the_file w h filePath) as Hserve.
      destruct (serve w h filePath); try done.
      * destruct Hserve as (-> & ? & ? & ?). eauto 6.
      * by destruct Hserve as (-> & ? & ?).
    + by apply strict_eq_str_true in Hroute.
  - destruct (strict_eq_str (static_componentName req) "oc-client").
    + destruct (host_path_join h _) as [filePath | e]; [| done].
      pose proof (serve_checks_the_file w h filePath) as Hserve.
      destruct (serve w h filePath); try done.
      * destruct Hserve as (-> & ? & ? & ?). eauto 6.
      * by destruct Hserve as (-> & ? & ?).
    + destruct (host_path_join h _) as [dir | e]; [| done].
      pose proof (serve_checks_the_file w h
                    (dir +:+ "/_package/" +:+ static_wildcard req)) as Hserve.
      destruct (serve w h _); try done.
      * destruct Hserve as (-> & ? & ? & ?). eauto 6.
      * by destruct Hserve as (-> & ? & ?).
Qed.



(** ** A request made again *)

Lemma success_passed_checks w req res s c body :
  cb_arg (repository_getComponent w (params_componentName req)
            (js_or (params_componentVersion req) (VStr ""))) = Some c ->
  (run (component w req res) s).1 = Responded 200 body ->
  truthy (cb_err (repository_getComponent w (params_componentName req)
                    (js_or (params_componentVersion req) (VStr "")))) = false /\
  isValid (validator_validateComponentParameters w
             (sanitiser_sanitiseComponentParameters w (req_query req)
                (oc_parameters (component_oc c)))
             (oc_parameters (component_oc c))) = true.
Proof.
  intros Hgot Hrun.
  destruct (truthy (cb_err (repository_getComponent w _ _))) eqn:Hfound.
  { rewrite component_not_found in Hrun by done. discriminate Hrun. }
  split; [done |].
  destruct (isValid _) eqn:Hvalid; [done |].
  revert Hrun. unfold run, component. cbv beta zeta.
  cbn [rc_name rc_version rc_parameters].
  rewrite run_bind_log, Hfound, Hgot, run_bind_lift_value, Hvalid.
  discriminate.
Qed.

(** X17. In production mode, once a request for a component with a
    data-provider has been answered 200, the same request made again
    does not compile the data-provider again: on the second run the
    source is not fetched and nothing is executed in the vm with the
    data-provider context. *)
Theorem repeated_request_reuses_data_provider
    (w : World) (req : Req) (res : Res) (s : St) (c : Component)
    (body : JsVal) :
  conf_local (res_conf res) = false ->
  cb_arg (repository_getComponent w (params_componentName req)
            (js_or (params_componentVersion req) (VStr ""))) = Some c ->
  truthy (files_dataProvider (oc_files (component_oc c))) = true ->
  (run (component w req res) s).1 = Responded 200 body ->
  exists evs,
    trace (run (component w req res) (run (component w req res) s).2).2
    = trace (run (component w req res) s).2 ++ evs /\
    Forall (fun e => data_compile_event e = false) evs.
Proof.
  intros Hlocal Hgot Hprovider Hrun.
  destruct (success_passed_checks w req res s c body Hgot Hrun)
    as [Hfound Hvalid].
  destruct (success_caches_function w req res s c body Hgot Hprovider Hrun)
    as [id Hcached].
  destruct (data_provider_hit w req res c Hfound Hgot Hvalid Hprovider
              (run (component w req res) s).2 (VFun id) Hlocal Hcached
              eq_refl)
    as (context & evs & Htrace & Hevs & _).
  eexists. split; [exact Htrace |].
  repeat (apply Forall_cons; split; [reflexivity |]). exact Hevs.
Qed.

Lemma repeated_request_reuses_data_provider_witness :
  exists evs,
    trace (run (component Sample.world
                  (Sample.render_req "greeter" VUndefined VUndefined)
                  Sample.res)
             (run (component Sample.world
                     (Sample.render_req "greeter" VUndefined VUndefined)
                     Sample.res) (init_state ∅)).2).2
    = trace (run (component Sample.world
                    (Sample.render_req "greeter" VUndefined VUndefined)
                    Sample.res) (init_state ∅)).2 ++ evs /\
    Forall (fun e => data_compile_event e = false) evs.
Proof.
  apply (repeated_request_reuses_data_provider Sample.world
           (Sample.render_req "greeter" VUndefined VUndefined)
           Sample.res (init_state ∅) Sample.greeter
           (VObj [("href", VStr "http://registry.example.org/greeter/");
                  ("type", VStr "oc-component");
                  ("version", VStr "2.0.0");
                  ("requestVersion", VStr "");
                  ("html", VStr "<div>banner</div>");
                  ("renderMode", VStr "rendered")]));
    reflexivity.
Defined.

(** ** The pre-rendered mode and the cached view *)

Lemma returnComponent_prerendered_leaves_view w req res c rc ps err data :
  headers_accept req = VStr prerendered ->
  sat (leaves_entry "file-contents" (artifact_key c "template.js"))
      (fun _ => True) (fun _ => True)
      (returnComponent w req res c rc ps err data).
Proof.
  intros Haccept. unfold returnComponent.
  rewrite (strict_eq_prerendered req Haccept).
  sat_steps; done.
Qed.

Lemma component_prerendered_leaves_view w req res c :
  headers_accept req = VStr prerendered ->
  cb_arg (repository_getComponent w (params_componentName req)
            (js_or (params_componentVersion req) (VStr ""))) = Some c ->
  sat (leaves_entry "file-contents" (artifact_key c "template.js"))
      (fun _ => True) (fun _ => True)
      (component w req res).
Proof.
  intros Haccept Hgot. unfold component.
  sat_to_resolved Hgot; try done.
  rewrite format_server_key.
  sat_steps; try done;
    try (by apply returnComponent_prerendered_leaves_view).
  - split; [| intros ?; discriminate].
    intros [= Hk]. symmetry in Hk. by apply artifact_key_kinds in Hk.
  - split; [discriminate |]. intros ? [= Hk _].
    symmetry in Hk. by apply artifact_key_kinds in Hk.
Qed.

(** X18. A pre-rendered request leaves the cached view alone: it neither
    reads nor writes the cache entry name/version/template.js of the
    component, which is afterwards what it was before. *)
Theorem prerendered_request_leaves_cached_view
    (w : World) (req : Req) (res : Res) (s : St) (c : Component) :
  headers_accept req = VStr prerendered ->
  cb_arg (repository_getComponent w (params_componentName req)
            (js_or (params_componentVersion req) (VStr ""))) = Some c ->
  cache (run (component w req res) s).2
    !! ("file-contents", artifact_key c "template.js")
  = cache s !! ("file-contents", artifact_key c "template.js") /\
  exists evs,
    trace (run (component w req res) s).2 = trace s ++ evs /\
    Forall (leaves_entry "file-contents" (artifact_key c "template.js")) evs.
Proof.
  intros Haccept Hgot.
  destruct (sat_run _ _ (component w req res) s
              (component_prerendered_leaves_view w req res c Haccept Hgot))
    as (_ & evs & Ht & Hc & HP).
  split; [| eauto].
  rewrite Hc. apply fold_apply_event_other; [discriminate |].
  eapply Forall_impl; [exact HP |]. by intros e [_ He].
Qed.

Lemma prerendered_request_leaves_cached_view_witness :
  cache (run (component Sample.world
                (Sample.render_req "greeter" VUndefined (VStr prerendered))
                Sample.res) (init_state ∅)).2
    !! ("file-contents", artifact_key Sample.greeter "template.js")
  = cache (init_state ∅)
      !! ("file-contents", artifact_key Sample.greeter "template.js").
Proof.
  apply (prerendered_request_leaves_cached_view Sample.world
           (Sample.render_req "greeter" VUndefined (VStr prerendered))
           Sample.res (init_state ∅) Sample.greeter);
    reflexivity.
Defined.

(** ** The reason of an error response *)

(** X19. An error response of the render handler carries what the handler
    left in [res.errorDetails]: with a status other than 200 the body is
    an object whose only field, [err] or [error], holds the value of
    [res.errorDetails]; with a 200 the field is left as it was. *)
Theorem render_error_body_carries_error_details
    (w : World) (req : Req) (res : Res) (s : St) :
  match (run (component w req res) s).1 with
  | Responded status body =>
      if (status =? 200)%Z
      then errorDetails (run (component w req res) s).2 = errorDetails s
      else error_body body (errorDetails (run (component w req res) s).2)
  | _ => True
  end.
Proof.
  unfold run.
  destruct (finish (component w req res s)) as [o s'] eqn:H.
  cbn [fst snd].
  unfold component in H. cbv beta zeta in H.
  cbn [rc_name rc_version rc_parameters] in H.
  repeat first
    [ progress cbn [negb] in H
    | progress unfold returnComponent in H
    | run_cases H ].
  all: unfold res_json, throw, pending in H; cbn [finish] in H.
  all: inversion H; subst; clear H.
  all: cbn [errorDetails logged Z.eqb Pos.eqb]; unfold error_body; auto.
Qed.
